(** * Lending forecast tool: the computational core of [app.py]

    A shallow embedding of the forecast script, the properties of it that
    the specification states, and further properties read off the script.

    Numbers.  The script computes with Python [int] and [float].  Integers
    are modelled as [Z]; every other quantity is modelled as an exact
    rational [Q], so [+], [-], [*] and [/] carry no rounding error and
    equations between amounts are stated up to [Qeq] ([==]).  The one
    operation that leaves the rationals, the fractional power of the
    "Avg Monthly Growth" metric, is modelled over the real numbers.

    Errors.  Python exceptions are an explicit [result] type; [st.stop()]
    is an outcome of the script of its own. *)

From Stdlib Require Import ZArith QArith Qround Qpower Qreals Reals Lia Psatz List.
From stdpp Require Import base option list gmap.
Import ListNotations.

Local Open Scope Z_scope.

(** ** Python values and exceptions *)

Inductive py_exception : Type :=
  | ZeroDivisionError
  | IndexError.

Inductive result (A : Type) : Type :=
  | Ok (a : A)
  | Raise (e : py_exception).

Arguments Ok {A} a.
Arguments Raise {A} e.

Definition bind {A B : Type} (r : result A) (k : A -> result B) : result B :=
  match r with
  | Ok a => k a
  | Raise e => Raise e
  end.

Notation "'let*' x ':=' r 'in' k" := (bind r (fun x => k))
  (at level 10, x name, r at level 100, k at level 200).

(** [for x in xs: body], threading the variables the body assigns. *)
Fixpoint for_each {A S : Type} (xs : list A) (body : A -> S -> result S) (s : S)
  : result S :=
  match xs with
  | [] => Ok s
  | x :: xs' => let* s' := body x s in for_each xs' body s'
  end.

(** [range(lo, hi)] and [range(n)]. *)
Definition py_range2 (lo hi : Z) : list Z :=
  map (fun k => lo + Z.of_nat k) (seq 0 (Z.to_nat (hi - lo))).

Definition py_range (n : Z) : list Z := py_range2 0 n.

(** [a / b]: true division, which raises on a zero divisor. *)
Definition py_truediv (a b : Q) : result Q :=
  if Qeq_bool b 0 then Raise ZeroDivisionError else Ok (a / b)%Q.

(** [b ** e] for an integer exponent: [0 ** 0] is [1], and a zero base with a
    negative exponent raises. *)
Definition py_pow (b : Q) (e : Z) : result Q :=
  if (e <? 0) && Qeq_bool b 0 then Raise ZeroDivisionError else Ok (b ^ e)%Q.

(** [int(x)]: truncation toward zero. *)
Definition py_int (x : Q) : Z := Z.quot (Qnum x) (Z.pos (Qden x)).

(** [[0] * n]: the empty list when [n] is not positive. *)
Definition py_zeros (n : Z) : list Q := repeat 0%Q (Z.to_nat n).

(** [l[i] += v] on a list: a negative index counts from the end, and an index
    outside [-len .. len-1] raises. *)
Definition py_iadd (l : list Q) (i : Z) (v : Q) : result (list Q) :=
  let n := Z.of_nat (length l) in
  if (0 <=? i) && (i <? n) then
    Ok (alter (fun x => (x + v)%Q) (Z.to_nat i) l)
  else if (- n <=? i) && (i <? 0) then
    Ok (alter (fun x => (x + v)%Q) (Z.to_nat (n + i)) l)
  else Raise IndexError.

(** The sum of a column. *)
Definition Qsum (l : list Q) : Q := fold_right Qplus 0%Q l.

Arguments Qsum : simpl never.

(** ** Monthly metrics (lines 138-161) *)

Record Metrics : Type := {
  monthly_lending : Q;
  loans_this_month : Z;
  revenue : Q;
  cost : Q;
  provision : Q;
  variable_cost : Q;
  net_contribution : Q;
  total_expenditure : Q;
  net_cashflow : Q
}.

Definition calculate_monthly_metrics
    (month : Z) (initial_lending loan_growth_rate avg_loan_size
     revenue_per_loan cost_per_funded bad_debt_per_loan
     fixed_costs variable_cost_pct : Q) : result Metrics :=
  let* growth := py_pow (1 + loan_growth_rate)%Q (month - 1) in
  let monthly_lending := (initial_lending * growth)%Q in
  let* loans_exact := py_truediv monthly_lending avg_loan_size in
  let loans_this_month := py_int loans_exact in
  let revenue := (inject_Z loans_this_month * revenue_per_loan)%Q in
  let cost := (inject_Z loans_this_month * cost_per_funded)%Q in
  let provision := (inject_Z loans_this_month * bad_debt_per_loan)%Q in
  let variable_cost := (revenue * variable_cost_pct)%Q in
  let net_contribution := (revenue - cost - provision - variable_cost)%Q in
  let total_expenditure := (cost + provision + variable_cost + fixed_costs)%Q in
  let net_cashflow := (revenue - total_expenditure)%Q in
  Ok {| monthly_lending := monthly_lending;
        loans_this_month := loans_this_month;
        revenue := revenue;
        cost := cost;
        provision := provision;
        variable_cost := variable_cost;
        net_contribution := net_contribution;
        total_expenditure := total_expenditure;
        net_cashflow := net_cashflow |}.

(** ** Sidebar inputs (lines 17-121)

    One value per widget, as the widget returns it: the four sliders that
    the script divides by 100 hold percentages. *)

Abbreviation pystr := (list N).

Record Sidebar : Type := {
  scenario_name : pystr;
  initial_lending : Q;
  loan_growth_slider : Q;
  min_loan_size : Q;
  max_loan_size : Q;
  loan_term : Z;
  cost_per_funded : Q;
  bad_debt_slider : Q;
  recovery_slider : Q;
  revenue_per_loan_base : Q;
  months : Z;
  fixed_costs : Q;
  variable_cost_slider : Q;
  save_button : bool;
  clear_button : bool
}.

Definition loan_growth_rate (w : Sidebar) : Q := (loan_growth_slider w / 100)%Q.
Definition bad_debt_rate (w : Sidebar) : Q := (bad_debt_slider w / 100)%Q.
Definition recovery_rate (w : Sidebar) : Q := (recovery_slider w / 100)%Q.
Definition variable_cost_pct (w : Sidebar) : Q := (variable_cost_slider w / 100)%Q.

(** ** Derived values (lines 55, 131-135) *)

Definition avg_loan_size (w : Sidebar) : Q :=
  ((min_loan_size w + max_loan_size w) / 2)%Q.

Definition loan_size_factor (w : Sidebar) : Q := (avg_loan_size w / 300)%Q.

Definition loan_term_factor (w : Sidebar) : Q := (inject_Z (loan_term w) / 3)%Q.

Definition revenue_per_loan (w : Sidebar) : Q :=
  (revenue_per_loan_base w * loan_size_factor w * loan_term_factor w)%Q.

Definition bad_debt_per_loan (w : Sidebar) : Q :=
  (avg_loan_size w * bad_debt_rate w * (1 - recovery_rate w))%Q.

Definition net_contribution_per_loan (w : Sidebar) : Q :=
  (revenue_per_loan w - cost_per_funded w - bad_debt_per_loan w)%Q.

Definition metrics_of (w : Sidebar) (month : Z) : result Metrics :=
  calculate_monthly_metrics month (initial_lending w) (loan_growth_rate w)
    (avg_loan_size w) (revenue_per_loan w) (cost_per_funded w)
    (bad_debt_per_loan w) (fixed_costs w) (variable_cost_pct w).

(** ** The forecast loop (lines 164-199) *)

(** One row of [data]. *)
Record Row : Type := {
  row_month : Z;
  row_lending : Q;
  row_loans : Z;
  row_revenue : Q;
  row_cost : Q;
  row_provision : Q;
  row_variable_cost : Q;
  row_fixed_costs : Q;
  row_net_contribution : Q;
  row_net_cashflow : Q
}.

(** The variables the loop assigns.  [skipped] is not a variable of the
    script: it counts how often the [else] side of the bounds check on
    line 197 is reached. *)
Record Forecast : Type := {
  data : list Row;
  cashflow_data : list Q;
  net_cashflow_data : list Q;
  skipped : nat
}.

Definition forecast_horizon (w : Sidebar) : Z := months w + loan_term w.

Definition forecast_init (w : Sidebar) : Forecast :=
  {| data := [];
     cashflow_data := py_zeros (forecast_horizon w);
     net_cashflow_data := py_zeros (forecast_horizon w);
     skipped := 0%nat |}.

Definition row_of (w : Sidebar) (month : Z) (metrics : Metrics) : Row :=
  {| row_month := month;
     row_lending := monthly_lending metrics;
     row_loans := loans_this_month metrics;
     row_revenue := revenue metrics;
     row_cost := cost metrics;
     row_provision := provision metrics;
     row_variable_cost := variable_cost metrics;
     row_fixed_costs := fixed_costs w;
     row_net_contribution := net_contribution metrics;
     row_net_cashflow := net_cashflow metrics |}.

(** Lines 196-199: the body of [for i in range(loan_term)]. *)
Definition repayment_body (month : Z) (monthly_repayment monthly_net_expense : Q)
    (i : Z) (f : Forecast) : result Forecast :=
  let repayment_month := month - 1 + i in
  if repayment_month <? Z.of_nat (length (cashflow_data f)) then
    let* cashflow' := py_iadd (cashflow_data f) repayment_month monthly_repayment in
    let* net' := py_iadd (net_cashflow_data f) repayment_month
                   (monthly_repayment - monthly_net_expense)%Q in
    Ok {| data := data f;
          cashflow_data := cashflow';
          net_cashflow_data := net';
          skipped := skipped f |}
  else
    Ok {| data := data f;
          cashflow_data := cashflow_data f;
          net_cashflow_data := net_cashflow_data f;
          skipped := S (skipped f) |}.

(** Lines 171-199: the body of [for month in range(1, months + 1)]. *)
Definition month_body (w : Sidebar) (month : Z) (f : Forecast) : result Forecast :=
  let* metrics := metrics_of w month in
  let f1 := {| data := data f ++ [row_of w month metrics];
               cashflow_data := cashflow_data f;
               net_cashflow_data := net_cashflow_data f;
               skipped := skipped f |} in
  if loan_term w >? 0 then
    let* monthly_repayment := py_truediv (revenue metrics) (inject_Z (loan_term w)) in
    let* monthly_net_expense :=
      py_truediv (total_expenditure metrics) (inject_Z (loan_term w)) in
    for_each (py_range (loan_term w))
      (repayment_body month monthly_repayment monthly_net_expense) f1
  else Ok f1.

Definition forecast (w : Sidebar) : result Forecast :=
  for_each (py_range2 1 (months w + 1)) (month_body w) (forecast_init w).

(** The rows of [data] are the records of the months visited, in order. *)
Definition row_for (w : Sidebar) (month : Z) (row : Row) : Prop :=
  exists m, metrics_of w month = Ok m /\ row = row_of w month m.

(** ** The data frame and its total row (lines 202-220) *)

Record TotalRow : Type := {
  total_lending : Q;
  total_loans : Z;
  total_revenue : Q;
  total_cost : Q;
  total_provision : Q;
  total_variable_cost : Q;
  total_fixed_costs : Q;
  total_net_contribution : Q;
  total_net_cashflow : Q
}.

Definition total_row (df : list Row) : TotalRow :=
  {| total_lending := Qsum (map row_lending df);
     total_loans := fold_right Z.add 0 (map row_loans df);
     total_revenue := Qsum (map row_revenue df);
     total_cost := Qsum (map row_cost df);
     total_provision := Qsum (map row_provision df);
     total_variable_cost := Qsum (map row_variable_cost df);
     total_fixed_costs := Qsum (map row_fixed_costs df);
     total_net_contribution := Qsum (map row_net_contribution df);
     total_net_cashflow := Qsum (map row_net_cashflow df) |}.

(** ** Saved scenarios (lines 12-13, 223-242, 471-473) *)

Record SavedParameters : Type := {
  saved_initial_lending : Q;
  saved_loan_growth_rate : Q;
  saved_avg_loan_size : Q;
  saved_loan_term : Z;
  saved_revenue_per_loan : Q;
  saved_bad_debt_rate : Q;
  saved_months : Z
}.

Record Snapshot : Type := {
  snap_df : list Row;
  snap_total : TotalRow;
  snap_cashflow : list Q;
  snap_net_cashflow : list Q;
  snap_parameters : SavedParameters
}.

(** A string is its sequence of code points.  [is_space] is the set of code
    points that [str.strip()] removes. *)
Definition is_space (c : N) : bool :=
  ((9 <=? c) && (c <=? 13) || (28 <=? c) && (c <=? 32)
   || (c =? 133) || (c =? 160) || (c =? 5760)
   || (8192 <=? c) && (c <=? 8202)
   || (c =? 8232) || (c =? 8233) || (c =? 8239) || (c =? 8287)
   || (c =? 12288))%N.

Fixpoint py_lstrip (s : pystr) : pystr :=
  match s with
  | [] => []
  | c :: s' => if is_space c then py_lstrip s' else s
  end.

Definition py_rstrip (s : pystr) : pystr := rev (py_lstrip (rev s)).

Definition py_strip (s : pystr) : pystr := py_rstrip (py_lstrip s).

(** The truth value of a string: it is not empty. *)
Definition str_truthy (s : pystr) : bool :=
  match s with
  | [] => false
  | _ :: _ => true
  end.

(** What the script shows in reply to a check or a button. *)
Inductive ui_message : Type :=
  | MinNotLessThanMax
  | SavedScenario (name : pystr)
  | EnterScenarioName
  | AllCleared.

Definition snapshot_of (w : Sidebar) (f : Forecast) : Snapshot :=
  {| snap_df := data f;
     snap_total := total_row (data f);
     snap_cashflow := cashflow_data f;
     snap_net_cashflow := net_cashflow_data f;
     snap_parameters :=
       {| saved_initial_lending := initial_lending w;
          saved_loan_growth_rate := loan_growth_rate w;
          saved_avg_loan_size := avg_loan_size w;
          saved_loan_term := loan_term w;
          saved_revenue_per_loan := revenue_per_loan w;
          saved_bad_debt_rate := bad_debt_rate w;
          saved_months := months w |} |}.

(** Lines 224-242: what a click on "Save Scenario" does. *)
Definition save_scenario (name : pystr) (snapshot : Snapshot)
    (saved_scenarios : gmap pystr Snapshot) : gmap pystr Snapshot * ui_message :=
  if str_truthy (py_strip name) then
    (<[name := snapshot]> saved_scenarios, SavedScenario name)
  else (saved_scenarios, EnterScenarioName).

(** ** The script (lines 50-53, 164-242, 406, 471-473)

    One run of the script on the sidebar's values and the session's saved
    scenarios. *)
Inductive Outcome : Type :=
  | Stopped (shown : ui_message)
  | Crashed (e : py_exception)
  | Rendered (f : Forecast) (total : TotalRow) (shown : list ui_message)
             (saved_scenarios : gmap pystr Snapshot).

Definition app (w : Sidebar) (saved_scenarios : gmap pystr Snapshot) : Outcome :=
  if Qle_bool (max_loan_size w) (min_loan_size w) then Stopped MinNotLessThanMax
  else
    match forecast w with
    | Raise e => Crashed e
    | Ok f =>
        let total := total_row (data f) in
        let '(saved1, shown1) :=
          if save_button w then
            let '(m, msg) := save_scenario (scenario_name w) (snapshot_of w f)
                               saved_scenarios in
            (m, [msg])
          else (saved_scenarios, []) in
        let '(saved2, shown2) :=
          if negb (bool_decide (saved1 = ∅)) && clear_button w
          then (∅, shown1 ++ [AllCleared])
          else (saved1, shown1) in
        Rendered f total shown2 saved2
    end.

(** ** The "Avg Monthly Growth" metric (line 263)

    The data frame holds numpy floats: a division by zero or a fractional
    power of a negative number raises nothing and yields an infinity or a
    nan, here [NotFinite]. *)
Inductive np_float : Type :=
  | Finite (r : R)
  | NotFinite.

Definition avg_growth (months : Z) (df : list Row) : result np_float :=
  if months >? 1 then
    match head df, last df with
    | Some first, Some final =>
        if Qeq_bool (row_lending first) 0 then Ok NotFinite
        else
          let ratio := (row_lending final / row_lending first)%Q in
          if Qeq_bool ratio 0 then Ok (Finite ((0 - 1) * 100)%R)
          else if Qle_bool 0 ratio then
            Ok (Finite ((Rpower (Q2R ratio) (1 / IZR months) - 1) * 100)%R)
          else Ok NotFinite
    | _, _ => Raise IndexError
    end
  else Ok (Finite 0%R).

(** ** Parameter sets *)

(** The constraints under which the forecast is specified: a positive
    initial volume, a growth rate of at least -100%, and loan sizes that are
    positive amounts (line 40: [min_value=50]) with the minimum below the
    maximum. *)
Definition valid_parameters (w : Sidebar) : Prop :=
  (0 < initial_lending w)%Q /\
  (- (1) <= loan_growth_rate w)%Q /\
  (0 < min_loan_size w)%Q /\
  (min_loan_size w < max_loan_size w)%Q.

(** The widgets' default values (lines 17-121), no button clicked. *)
Definition default_sidebar : Sidebar :=
  {| scenario_name := [68; 101; 102; 97; 117; 108; 116; 32;
                       83; 99; 101; 110; 97; 114; 105; 111]%N;
     initial_lending := 2000000;
     loan_growth_slider := 0;
     min_loan_size := 300;
     max_loan_size := 1500;
     loan_term := 3;
     cost_per_funded := 40;
     bad_debt_slider := 20;
     recovery_slider := 0;
     revenue_per_loan_base := 150;
     months := 12;
     fixed_costs := 25000;
     variable_cost_slider := 5;
     save_button := false;
     clear_button := false |}.

Definition with_volume (v : Q) (w : Sidebar) : Sidebar :=
  {| scenario_name := scenario_name w; initial_lending := v;
     loan_growth_slider := loan_growth_slider w;
     min_loan_size := min_loan_size w; max_loan_size := max_loan_size w;
     loan_term := loan_term w; cost_per_funded := cost_per_funded w;
     bad_debt_slider := bad_debt_slider w; recovery_slider := recovery_slider w;
     revenue_per_loan_base := revenue_per_loan_base w; months := months w;
     fixed_costs := fixed_costs w; variable_cost_slider := variable_cost_slider w;
     save_button := save_button w; clear_button := clear_button w |}.

Definition with_growth (g : Q) (w : Sidebar) : Sidebar :=
  {| scenario_name := scenario_name w; initial_lending := initial_lending w;
     loan_growth_slider := g;
     min_loan_size := min_loan_size w; max_loan_size := max_loan_size w;
     loan_term := loan_term w; cost_per_funded := cost_per_funded w;
     bad_debt_slider := bad_debt_slider w; recovery_slider := recovery_slider w;
     revenue_per_loan_base := revenue_per_loan_base w; months := months w;
     fixed_costs := fixed_costs w; variable_cost_slider := variable_cost_slider w;
     save_button := save_button w; clear_button := clear_button w |}.

Definition with_term (t : Z) (w : Sidebar) : Sidebar :=
  {| scenario_name := scenario_name w; initial_lending := initial_lending w;
     loan_growth_slider := loan_growth_slider w;
     min_loan_size := min_loan_size w; max_loan_size := max_loan_size w;
     loan_term := t; cost_per_funded := cost_per_funded w;
     bad_debt_slider := bad_debt_slider w; recovery_slider := recovery_slider w;
     revenue_per_loan_base := revenue_per_loan_base w; months := months w;
     fixed_costs := fixed_costs w; variable_cost_slider := variable_cost_slider w;
     save_button := save_button w; clear_button := clear_button w |}.

Definition with_months (n : Z) (w : Sidebar) : Sidebar :=
  {| scenario_name := scenario_name w; initial_lending := initial_lending w;
     loan_growth_slider := loan_growth_slider w;
     min_loan_size := min_loan_size w; max_loan_size := max_loan_size w;
     loan_term := loan_term w; cost_per_funded := cost_per_funded w;
     bad_debt_slider := bad_debt_slider w; recovery_slider := recovery_slider w;
     revenue_per_loan_base := revenue_per_loan_base w; months := n;
     fixed_costs := fixed_costs w; variable_cost_slider := variable_cost_slider w;
     save_button := save_button w; clear_button := clear_button w |}.

Definition with_loan_sizes (lo hi : Q) (w : Sidebar) : Sidebar :=
  {| scenario_name := scenario_name w; initial_lending := initial_lending w;
     loan_growth_slider := loan_growth_slider w;
     min_loan_size := lo; max_loan_size := hi;
     loan_term := loan_term w; cost_per_funded := cost_per_funded w;
     bad_debt_slider := bad_debt_slider w; recovery_slider := recovery_slider w;
     revenue_per_loan_base := revenue_per_loan_base w; months := months w;
     fixed_costs := fixed_costs w; variable_cost_slider := variable_cost_slider w;
     save_button := save_button w; clear_button := clear_button w |}.

Definition with_buttons (save clear : bool) (w : Sidebar) : Sidebar :=
  {| scenario_name := scenario_name w; initial_lending := initial_lending w;
     loan_growth_slider := loan_growth_slider w;
     min_loan_size := min_loan_size w; max_loan_size := max_loan_size w;
     loan_term := loan_term w; cost_per_funded := cost_per_funded w;
     bad_debt_slider := bad_debt_slider w; recovery_slider := recovery_slider w;
     revenue_per_loan_base := revenue_per_loan_base w; months := months w;
     fixed_costs := fixed_costs w; variable_cost_slider := variable_cost_slider w;
     save_button := save; clear_button := clear |}.

Definition with_name (name : pystr) (w : Sidebar) : Sidebar :=
  {| scenario_name := name; initial_lending := initial_lending w;
     loan_growth_slider := loan_growth_slider w;
     min_loan_size := min_loan_size w; max_loan_size := max_loan_size w;
     loan_term := loan_term w; cost_per_funded := cost_per_funded w;
     bad_debt_slider := bad_debt_slider w; recovery_slider := recovery_slider w;
     revenue_per_loan_base := revenue_per_loan_base w; months := months w;
     fixed_costs := fixed_costs w; variable_cost_slider := variable_cost_slider w;
     save_button := save_button w; clear_button := clear_button w |}.

(** The concrete scenario of the specification: one month at 1,000,000. *)
Definition spec_scenario : Sidebar :=
  with_months 1 (with_volume 1000000 default_sidebar).

(** Two months at the largest growth the slider offers. *)
Definition doubling_scenario : Sidebar :=
  with_months 2 (with_growth 100 default_sidebar).

(** A term of zero months, which the selectbox does not offer. *)
Definition zero_term_scenario : Sidebar :=
  with_months 2 (with_term 0 default_sidebar).

(** Two snapshots to save: the forecast arrays as allocated, for the default
    widgets and for the concrete scenario. *)
Definition default_snapshot : Snapshot :=
  snapshot_of default_sidebar (forecast_init default_sidebar).

Definition other_snapshot : Snapshot :=
  snapshot_of spec_scenario (forecast_init spec_scenario).

(** ** The "Net Contribution Margin" metric (line 271) *)

Definition margin (w : Sidebar) : Q :=
  if negb (Qle_bool (revenue_per_loan w) 0)
  then (net_contribution_per_loan w / revenue_per_loan w * 100)%Q
  else 0%Q.

(** ** The name of the downloaded file (line 400) *)

(** [s.replace(old, new)] for one-character [old] and [new]. *)
Definition py_replace_char (old new : N) (s : pystr) : pystr :=
  map (fun c => if (c =? old)%N then new else c) s.

(** The code points of [_forecast.xlsx]. *)
Definition forecast_suffix : pystr :=
  [95; 102; 111; 114; 101; 99; 97; 115; 116; 46; 120; 108; 115; 120]%N.

Definition file_name (w : Sidebar) : pystr :=
  py_replace_char 32 95 (scenario_name w) ++ forecast_suffix.

(** ** What the amortization amounts to

    Not a function of the script: the amount that falls due in the slot of
    0-based index [k] when every row spreads its revenue evenly over the
    [term] slots from index [row_month - 1] on.  The loop is compared with
    it. *)
Definition in_window (term : Z) (r : Row) (k : Z) : bool :=
  (row_month r - 1 <=? k) && (k <? row_month r - 1 + term).

Definition repayment_due (term : Z) (rows : list Row) (k : Z) : Q :=
  Qsum (map (fun r => if in_window term r k
                      then (row_revenue r / inject_Z term)%Q else 0%Q) rows).

Definition net_repayment_due (term : Z) (rows : list Row) (k : Z) : Q :=
  Qsum (map (fun r => if in_window term r k
                      then (row_net_cashflow r / inject_Z term)%Q else 0%Q) rows).

(** ** Properties of the Python operations *)

Lemma py_pow_returns (b : Q) (e : Z) : 0 <= e -> py_pow b e = Ok (b ^ e)%Q.
Proof.
  intros He. unfold py_pow.
  destruct (Z.ltb_spec e 0) as [Hlt | _]; [lia | reflexivity].
Qed.

Lemma py_truediv_returns (a b : Q) : ~ (b == 0)%Q -> py_truediv a b = Ok (a / b)%Q.
Proof.
  intros Hb. unfold py_truediv.
  destruct (Qeq_bool b 0) eqn:E; [| reflexivity].
  apply Qeq_bool_eq in E. contradiction.
Qed.

Lemma py_int_floor (x : Q) : (0 <= x)%Q -> py_int x = Qfloor x.
Proof.
  destruct x as [n d]. unfold Qle, py_int, Qfloor. simpl. intros Hn.
  apply Z.quot_div_nonneg; lia.
Qed.

(** ** Loops, ranges and list updates *)

(** A loop invariant may refer to the items already visited. *)
Lemma for_each_invariant {A S : Type} (body : A -> S -> result S)
    (P : list A -> S -> Prop) (xs : list A) :
  forall (visited : list A) (s : S),
    P visited s ->
    (forall seen x s0, In x xs -> P seen s0 ->
       exists s1, body x s0 = Ok s1 /\ P (seen ++ [x]) s1) ->
    exists s', for_each xs body s = Ok s' /\ P (visited ++ xs) s'.
Proof.
  induction xs as [| x xs IH]; intros visited s HP Hstep.
  - exists s. rewrite app_nil_r. split; [reflexivity | assumption].
  - destruct (Hstep visited x s (or_introl eq_refl) HP) as (s1 & Hbody & HP1).
    destruct (IH (visited ++ [x]) s1 HP1) as (s' & Hrun & HP').
    + intros seen y s0 Hin. apply Hstep. now right.
    + exists s'. cbn [for_each]. rewrite Hbody. cbn [bind].
      rewrite <- app_assoc in HP'. split; assumption.
Qed.

Lemma in_py_range2 (lo hi x : Z) : In x (py_range2 lo hi) -> lo <= x < hi.
Proof.
  unfold py_range2. rewrite in_map_iff. intros (k & <- & Hk).
  apply in_seq in Hk. lia.
Qed.

Lemma length_py_range2 (lo hi : Z) : length (py_range2 lo hi) = Z.to_nat (hi - lo).
Proof. unfold py_range2. now rewrite length_map, length_seq. Qed.

Lemma length_py_zeros (n : Z) : length (py_zeros n) = Z.to_nat n.
Proof. apply repeat_length. Qed.

Lemma Qsum_cons (x : Q) (l : list Q) : Qsum (x :: l) = (x + Qsum l)%Q.
Proof. reflexivity. Qed.

Lemma Qsum_py_zeros (n : Z) : (Qsum (py_zeros n) == 0)%Q.
Proof.
  unfold py_zeros. induction (Z.to_nat n) as [| k IH]; [reflexivity |].
  cbn [repeat]. rewrite Qsum_cons, IH. reflexivity.
Qed.

Lemma Qsum_app (l1 l2 : list Q) : (Qsum (l1 ++ l2) == Qsum l1 + Qsum l2)%Q.
Proof.
  induction l1 as [| x l1 IH].
  - change (Qsum l2 == 0 + Qsum l2)%Q. ring.
  - change (x + Qsum (l1 ++ l2) == x + Qsum l1 + Qsum l2)%Q. rewrite IH. ring.
Qed.

Lemma Qsum_alter_add (l : list Q) (i : nat) (v : Q) :
  (i < length l)%nat ->
  (Qsum (alter (fun x => x + v) i l) == Qsum l + v)%Q.
Proof.
  revert i. induction l as [| x l IH]; intros i Hi; cbn [length] in Hi; [lia |].
  destruct i as [| i].
  - change (x + v + Qsum l == x + Qsum l + v)%Q. ring.
  - change (x + Qsum (alter (fun x => x + v) i l) == x + Qsum l + v)%Q.
    rewrite IH by lia. ring.
Qed.

Lemma py_iadd_in_range (l : list Q) (i : Z) (v : Q) :
  0 <= i < Z.of_nat (length l) ->
  py_iadd l i v = Ok (alter (fun x => (x + v)%Q) (Z.to_nat i) l).
Proof.
  intros Hi. unfold py_iadd.
  destruct (Z.leb_spec 0 i); [| lia].
  destruct (Z.ltb_spec i (Z.of_nat (length l))); [reflexivity | lia].
Qed.

(** ** Properties of the monthly metrics *)

(** What the function returns from month 1 on when the average loan size is
    not zero: no exception is raised. *)
Lemma calculate_monthly_metrics_returns
    (month : Z) (il g avg rpl cpf bdpl fc vcp : Q) :
  1 <= month -> ~ (avg == 0)%Q ->
  let lending := (il * (1 + g) ^ (month - 1))%Q in
  let loans := py_int (lending / avg)%Q in
  let rev := (inject_Z loans * rpl)%Q in
  let cst := (inject_Z loans * cpf)%Q in
  let prov := (inject_Z loans * bdpl)%Q in
  let var := (rev * vcp)%Q in
  calculate_monthly_metrics month il g avg rpl cpf bdpl fc vcp =
  Ok {| monthly_lending := lending;
        loans_this_month := loans;
        revenue := rev;
        cost := cst;
        provision := prov;
        variable_cost := var;
        net_contribution := (rev - cst - prov - var)%Q;
        total_expenditure := (cst + prov + var + fc)%Q;
        net_cashflow := (rev - (cst + prov + var + fc))%Q |}.
Proof.
  intros Hm Havg. unfold calculate_monthly_metrics.
  rewrite py_pow_returns by lia. cbn [bind].
  rewrite py_truediv_returns by assumption. reflexivity.
Qed.

Lemma valid_avg_loan_size_pos (w : Sidebar) :
  valid_parameters w -> (0 < avg_loan_size w)%Q.
Proof.
  intros (_ & _ & Hmin & Hlt). unfold avg_loan_size.
  apply Qlt_shift_div_l; [reflexivity | lra].
Qed.

Lemma valid_avg_loan_size_nonzero (w : Sidebar) :
  valid_parameters w -> ~ (avg_loan_size w == 0)%Q.
Proof.
  intros Hv E. apply valid_avg_loan_size_pos in Hv. rewrite E in Hv.
  discriminate Hv.
Qed.

Lemma metrics_of_runs (w : Sidebar) (month : Z) :
  ~ (avg_loan_size w == 0)%Q -> 1 <= month -> exists m, metrics_of w month = Ok m.
Proof.
  intros Havg Hm. unfold metrics_of.
  rewrite calculate_monthly_metrics_returns; [eexists; reflexivity | | ]; assumption.
Qed.

(** C4: from month 1 on and for a non-zero average loan size (so for every
    valid parameter set), [calculate_monthly_metrics] returns a record, and
    in it total_expenditure = cost + provision + variable_cost + fixed costs,
    net_cashflow = revenue - total_expenditure and net_contribution =
    revenue - cost - provision - variable_cost, each as an identity of the
    computed values. *)
Theorem monthly_record_equations
    (month : Z) (il g avg rpl cpf bdpl fc vcp : Q) :
  1 <= month -> ~ (avg == 0)%Q ->
  exists m,
    calculate_monthly_metrics month il g avg rpl cpf bdpl fc vcp = Ok m /\
    total_expenditure m = (cost m + provision m + variable_cost m + fc)%Q /\
    net_cashflow m = (revenue m - total_expenditure m)%Q /\
    net_contribution m = (revenue m - cost m - provision m - variable_cost m)%Q.
Proof.
  intros Hm Havg.
  pose proof (calculate_monthly_metrics_returns month il g avg rpl cpf bdpl fc vcp
                Hm Havg) as Hret.
  cbv zeta in Hret. eexists. split; [exact Hret |]. cbn. repeat split.
Qed.

Lemma monthly_record_equations_witness :
  exists m,
    metrics_of default_sidebar 7 = Ok m /\
    total_expenditure m =
      (cost m + provision m + variable_cost m + fixed_costs default_sidebar)%Q /\
    net_cashflow m = (revenue m - total_expenditure m)%Q /\
    net_contribution m = (revenue m - cost m - provision m - variable_cost m)%Q.
Proof.
  apply (monthly_record_equations 7); [lia | discriminate].
Defined.

(** C10: in the record of any month, net_contribution - net_cashflow is the
    fixed monthly overhead, whatever the volume, the growth and the rates. *)
Theorem contribution_minus_cashflow_is_overhead
    (month : Z) (il g avg rpl cpf bdpl fc vcp : Q) :
  1 <= month -> ~ (avg == 0)%Q ->
  exists m,
    calculate_monthly_metrics month il g avg rpl cpf bdpl fc vcp = Ok m /\
    (net_contribution m - net_cashflow m == fc)%Q.
Proof.
  intros Hm Havg.
  pose proof (calculate_monthly_metrics_returns month il g avg rpl cpf bdpl fc vcp
                Hm Havg) as Hret.
  cbv zeta in Hret. eexists. split; [exact Hret |]. cbn. ring.
Qed.

Lemma contribution_minus_cashflow_is_overhead_witness :
  exists m,
    metrics_of default_sidebar 7 = Ok m /\
    (net_contribution m - net_cashflow m == 25000)%Q.
Proof.
  apply (contribution_minus_cashflow_is_overhead 7); [lia | discriminate].
Defined.

Lemma monthly_lending_nonneg (w : Sidebar) (month : Z) :
  valid_parameters w ->
  (0 <= initial_lending w * (1 + loan_growth_rate w) ^ (month - 1))%Q.
Proof.
  intros (Hil & Hg & _ & _).
  apply Qmult_le_0_compat; [now apply Qlt_le_weak |].
  apply Qpower_0_le. lra.
Qed.

(** C2: for every valid parameter set and every month from 1 on, the record
    holds loans funded = floor(lending volume / average loan size); and a
    volume of 2,000,000 at an average loan size of 900 gives 2222 loans. *)
Theorem loans_funded_is_floor :
  (forall (w : Sidebar) (month : Z),
      valid_parameters w -> 1 <= month ->
      exists m,
        metrics_of w month = Ok m /\
        loans_this_month m = Qfloor (monthly_lending m / avg_loan_size w)%Q) /\
  (exists m,
      metrics_of default_sidebar 1 = Ok m /\
      (monthly_lending m == 2000000)%Q /\
      (avg_loan_size default_sidebar == 900)%Q /\
      loans_this_month m = 2222).
Proof.
  split.
  - intros w month Hv Hm.
    pose proof (valid_avg_loan_size_pos w Hv) as Hpos.
    pose proof (calculate_monthly_metrics_returns month (initial_lending w)
                  (loan_growth_rate w) (avg_loan_size w) (revenue_per_loan w)
                  (cost_per_funded w) (bad_debt_per_loan w) (fixed_costs w)
                  (variable_cost_pct w) Hm (valid_avg_loan_size_nonzero w Hv))
      as Hret.
    cbv zeta in Hret. eexists. split; [exact Hret |]. cbn.
    apply py_int_floor.
    apply Qle_shift_div_l; [assumption |].
    rewrite Qmult_0_l. now apply monthly_lending_nonneg.
  - eexists. split; [reflexivity |]. repeat split.
Qed.

Lemma loans_funded_is_floor_witness :
  exists m,
    metrics_of (with_growth (-50) default_sidebar) 5 = Ok m /\
    loans_this_month m =
      Qfloor (monthly_lending m / avg_loan_size (with_growth (-50) default_sidebar))%Q.
Proof.
  apply (proj1 loans_funded_is_floor); [| lia].
  unfold valid_parameters. repeat split; discriminate.
Defined.

(** C9: the concrete scenario (1,000,000 at no growth, loans of 300 to 1500,
    term 3, cost 40, bad debt 20%, recovery 0%, base revenue 150, one month,
    overhead 25,000, variable cost 5%) gives in month 1: 1111 loans, revenue
    per loan 450, revenue 499,950, bad debt per loan 180, provision 199,980,
    cost 44,440, variable cost 24,997.5, total expenditure 294,417.5 and net
    cashflow 205,532.5. *)
Theorem concrete_scenario_month_1 :
  (avg_loan_size spec_scenario == 900)%Q /\
  (bad_debt_rate spec_scenario == 0.20)%Q /\
  (recovery_rate spec_scenario == 0)%Q /\
  (variable_cost_pct spec_scenario == 0.05)%Q /\
  (revenue_per_loan spec_scenario == 450)%Q /\
  (bad_debt_per_loan spec_scenario == 180)%Q /\
  exists m,
    metrics_of spec_scenario 1 = Ok m /\
    loans_this_month m = 1111 /\
    (revenue m == 499950)%Q /\
    (provision m == 199980)%Q /\
    (cost m == 44440)%Q /\
    (variable_cost m == 24997.5)%Q /\
    (total_expenditure m == 294417.5)%Q /\
    (net_cashflow m == 205532.5)%Q.
Proof.
  repeat (split; [reflexivity |]).
  eexists. split; [reflexivity |]. repeat split.
Qed.

(** ** Properties of the forecast loop *)

(** The inner loop: when the [t] slots from index [month - 1] on lie inside
    both arrays, every pass takes the writing side of the bounds check and
    adds one instalment to the sum of [cashflow_data]. *)
Lemma repayment_loop_spec (month t : Z) (rep expense : Q) (f : Forecast) :
  1 <= month ->
  month - 1 + t <= Z.of_nat (length (cashflow_data f)) ->
  length (net_cashflow_data f) = length (cashflow_data f) ->
  exists f',
    for_each (py_range t) (repayment_body month rep expense) f = Ok f' /\
    data f' = data f /\
    length (cashflow_data f') = length (cashflow_data f) /\
    length (net_cashflow_data f') = length (cashflow_data f) /\
    skipped f' = skipped f /\
    (Qsum (cashflow_data f') ==
     Qsum (cashflow_data f) + inject_Z (Z.of_nat (length (py_range t))) * rep)%Q.
Proof.
  intros Hmonth Hfit Hnet.
  pose (P := fun (seen : list Z) (g : Forecast) =>
    data g = data f /\
    length (cashflow_data g) = length (cashflow_data f) /\
    length (net_cashflow_data g) = length (cashflow_data f) /\
    skipped g = skipped f /\
    (Qsum (cashflow_data g) ==
     Qsum (cashflow_data f) + inject_Z (Z.of_nat (length seen)) * rep)%Q).
  destruct (for_each_invariant (repayment_body month rep expense) P
              (py_range t) [] f) as (f' & Hrun & HP).
  - unfold P. repeat split; try assumption. cbn. ring.
  - intros seen i g Hin (Hd & Hc & Hn & Hs & Hsum).
    apply in_py_range2 in Hin.
    assert (Hidx : 0 <= month - 1 + i < Z.of_nat (length (cashflow_data g)))
      by (rewrite Hc; lia).
    unfold repayment_body.
    destruct (Z.ltb_spec (month - 1 + i) (Z.of_nat (length (cashflow_data g))))
      as [_ | Hge]; [| lia].
    rewrite py_iadd_in_range by exact Hidx. cbn [bind].
    rewrite py_iadd_in_range by (rewrite Hn, <- Hc; exact Hidx). cbn [bind].
    eexists. split; [reflexivity |]. unfold P. cbn.
    rewrite !length_alter. repeat split; try assumption.
    rewrite Qsum_alter_add by lia. rewrite Hsum.
    rewrite length_app, Nat2Z.inj_add, inject_Z_plus. cbn. ring.
  - exists f'. destruct HP as (Hd & Hc & Hn & Hs & Hsum).
    repeat split; assumption.
Qed.

(** One pass of the outer loop, for a month whose slots fit the arrays. *)
Lemma month_body_spec (w : Sidebar) (month : Z) (f : Forecast) :
  ~ (avg_loan_size w == 0)%Q ->
  1 <= month ->
  (0 < loan_term w ->
   month - 1 + loan_term w <= Z.of_nat (length (cashflow_data f))) ->
  length (net_cashflow_data f) = length (cashflow_data f) ->
  exists m f',
    metrics_of w month = Ok m /\
    month_body w month f = Ok f' /\
    data f' = data f ++ [row_of w month m] /\
    length (cashflow_data f') = length (cashflow_data f) /\
    length (net_cashflow_data f') = length (cashflow_data f) /\
    skipped f' = skipped f /\
    (0 < loan_term w ->
     (Qsum (cashflow_data f') == Qsum (cashflow_data f) + revenue m)%Q) /\
    (loan_term w <= 0 ->
     cashflow_data f' = cashflow_data f /\
     net_cashflow_data f' = net_cashflow_data f).
Proof.
  intros Havg Hmonth Hfit Hnet.
  destruct (metrics_of_runs w month Havg Hmonth) as (m & Hm).
  exists m. unfold month_body. rewrite Hm. cbn [bind].
  destruct (Z.gtb_spec (loan_term w) 0) as [Hpos | Hnonpos].
  - assert (Hterm : ~ (inject_Z (loan_term w) == 0)%Q).
    { unfold Qeq. cbn. lia. }
    rewrite !py_truediv_returns by exact Hterm. cbn [bind].
    match goal with
    | |- context [for_each _ (repayment_body _ ?rep ?expense) ?f1] =>
        destruct (repayment_loop_spec month (loan_term w) rep expense f1)
          as (f' & Hrun & Hd & Hc & Hn & Hs & Hsum)
    end.
    + exact Hmonth.
    + cbn. apply Hfit. lia.
    + cbn. exact Hnet.
    + exists f'. cbn in Hd, Hc, Hn, Hs, Hsum.
      split; [reflexivity |]. split; [exact Hrun |].
      split; [exact Hd |]. split; [exact Hc |]. split; [exact Hn |].
      split; [exact Hs |]. split; [intros _ | lia].
      rewrite Hsum. unfold py_range. rewrite length_py_range2.
      rewrite Z2Nat.id by lia. replace (loan_term w - 0) with (loan_term w) by lia.
      field. exact Hterm.
  - eexists. split; [reflexivity |]. split; [reflexivity |]. cbn.
    repeat split; try reflexivity; try assumption. lia.
Qed.

(** The whole loop: it raises nothing when the average loan size is not
    zero, never reaches the skipping side of the bounds check, keeps both
    arrays at their allocated length and, for a positive term, keeps the sum
    of [cashflow_data] equal to the revenue of the rows so far. *)
Lemma forecast_spec (w : Sidebar) :
  ~ (avg_loan_size w == 0)%Q ->
  exists f,
    forecast w = Ok f /\
    length (cashflow_data f) = Z.to_nat (forecast_horizon w) /\
    length (net_cashflow_data f) = Z.to_nat (forecast_horizon w) /\
    skipped f = 0%nat /\
    Forall2 (row_for w) (py_range2 1 (months w + 1)) (data f) /\
    (0 < loan_term w ->
     (Qsum (cashflow_data f) == Qsum (map row_revenue (data f)))%Q) /\
    (loan_term w <= 0 ->
     cashflow_data f = py_zeros (forecast_horizon w) /\
     net_cashflow_data f = py_zeros (forecast_horizon w)).
Proof.
  intros Havg.
  pose (P := fun (seen : list Z) (f : Forecast) =>
    length (cashflow_data f) = Z.to_nat (forecast_horizon w) /\
    length (net_cashflow_data f) = Z.to_nat (forecast_horizon w) /\
    skipped f = 0%nat /\
    Forall2 (row_for w) seen (data f) /\
    (0 < loan_term w ->
     (Qsum (cashflow_data f) == Qsum (map row_revenue (data f)))%Q) /\
    (loan_term w <= 0 ->
     cashflow_data f = py_zeros (forecast_horizon w) /\
     net_cashflow_data f = py_zeros (forecast_horizon w))).
  destruct (for_each_invariant (month_body w) P (py_range2 1 (months w + 1))
              [] (forecast_init w)) as (f & Hrun & HP).
  - unfold P, forecast_init. cbn.
    rewrite length_py_zeros. repeat split; try reflexivity.
    + constructor.
    + intros _. apply Qsum_py_zeros.
  - intros seen month f Hin (Hc & Hn & Hs & Hrows & Hsum & Hzero).
    apply in_py_range2 in Hin.
    destruct (month_body_spec w month f Havg) as
      (m & f' & Hm & Hbody & Hd' & Hc' & Hn' & Hs' & Hsum' & Hzero').
    + lia.
    + intros Hterm. rewrite Hc. unfold forecast_horizon. lia.
    + now rewrite Hn, Hc.
    + exists f'. split; [exact Hbody |]. unfold P.
      split; [now rewrite Hc' |]. split; [now rewrite Hn' |].
      split; [now rewrite Hs' |]. split; [| split].
      * rewrite Hd'. apply Forall2_app; [exact Hrows |].
        constructor; [| constructor]. exists m. split; [exact Hm | reflexivity].
      * intros Hterm. rewrite Hsum' by exact Hterm. rewrite Hsum by exact Hterm.
        rewrite Hd', map_app, Qsum_app. cbn [map]. rewrite Qsum_cons.
        change (Qsum []) with 0%Q. cbn [row_of row_revenue]. ring.
      * intros Hterm. destruct (Hzero' Hterm) as (-> & ->). now apply Hzero.
  - exists f. split; [exact Hrun | exact HP].
Qed.

(** C3: for every valid parameter set with a loan term of at least one month
    the forecast loop returns, [cashflow_data] has length horizon + term, its
    rows are the monthly records of months 1..horizon, and the sum of
    [cashflow_data] over all its indices equals the sum of the revenue of
    those records (in exact arithmetic). *)
Theorem amortization_conserves_revenue (w : Sidebar) :
  valid_parameters w -> 1 <= loan_term w ->
  exists f,
    forecast w = Ok f /\
    length (cashflow_data f) = Z.to_nat (months w + loan_term w) /\
    Forall2 (row_for w) (py_range2 1 (months w + 1)) (data f) /\
    (Qsum (cashflow_data f) == Qsum (map row_revenue (data f)))%Q.
Proof.
  intros Hv Hterm.
  destruct (forecast_spec w (valid_avg_loan_size_nonzero w Hv))
    as (f & Hrun & Hc & _ & _ & Hrows & Hsum & _).
  exists f. repeat split; try assumption. apply Hsum. lia.
Qed.

Lemma amortization_conserves_revenue_witness :
  exists f,
    forecast (with_growth 10 default_sidebar) = Ok f /\
    length (cashflow_data f) = 15%nat /\
    Forall2 (row_for (with_growth 10 default_sidebar)) (py_range2 1 13) (data f) /\
    (Qsum (cashflow_data f) == Qsum (map row_revenue (data f)))%Q.
Proof.
  apply (amortization_conserves_revenue (with_growth 10 default_sidebar)); [| cbn; lia].
  unfold valid_parameters. repeat split; discriminate.
Defined.

(** C8: for every month m in 1..horizon and every offset i in 0..term-1 the
    written index m - 1 + i is below the length horizon + term at which both
    arrays are allocated and stay, and the loop never reaches the skipping
    side of the bounds check: no allocation is dropped. *)
Theorem bounds_check_never_skips (w : Sidebar) :
  ~ (avg_loan_size w == 0)%Q ->
  length (cashflow_data (forecast_init w)) = Z.to_nat (months w + loan_term w) /\
  (forall m i, 1 <= m <= months w -> 0 <= i < loan_term w ->
     m - 1 + i < Z.of_nat (length (cashflow_data (forecast_init w)))) /\
  exists f,
    forecast w = Ok f /\
    length (cashflow_data f) = length (cashflow_data (forecast_init w)) /\
    length (net_cashflow_data f) = length (cashflow_data (forecast_init w)) /\
    skipped f = 0%nat.
Proof.
  intros Havg.
  assert (Hlen : length (cashflow_data (forecast_init w)) =
                 Z.to_nat (months w + loan_term w)).
  { cbn. apply length_py_zeros. }
  split; [exact Hlen |]. split.
  - intros m i Hm Hi. rewrite Hlen. lia.
  - destruct (forecast_spec w Havg) as (f & Hrun & Hc & Hn & Hs & _).
    exists f. rewrite Hlen. repeat split; assumption.
Qed.

Lemma bounds_check_never_skips_witness :
  length (cashflow_data (forecast_init default_sidebar)) = 15%nat /\
  (forall m i, 1 <= m <= 12 -> 0 <= i < 3 ->
     m - 1 + i < Z.of_nat (length (cashflow_data (forecast_init default_sidebar)))) /\
  exists f,
    forecast default_sidebar = Ok f /\
    length (cashflow_data f) = length (cashflow_data (forecast_init default_sidebar)) /\
    length (net_cashflow_data f) =
      length (cashflow_data (forecast_init default_sidebar)) /\
    skipped f = 0%nat.
Proof.
  apply (bounds_check_never_skips default_sidebar). discriminate.
Defined.

(** C6, as the script behaves: with a loan term of 0 the guard on line 191
    skips the amortization, so nothing is divided by the term, no exception
    is raised, and both series are returned as [horizon] zeros next to the
    monthly records. *)
Theorem zero_term_skips_amortization (w : Sidebar) :
  ~ (avg_loan_size w == 0)%Q -> loan_term w = 0 ->
  exists f,
    forecast w = Ok f /\
    Forall2 (row_for w) (py_range2 1 (months w + 1)) (data f) /\
    cashflow_data f = py_zeros (months w) /\
    net_cashflow_data f = py_zeros (months w).
Proof.
  intros Havg Hterm.
  destruct (forecast_spec w Havg) as (f & Hrun & _ & _ & _ & Hrows & _ & Hzero).
  exists f. split; [exact Hrun |]. split; [exact Hrows |].
  destruct Hzero as (Hc & Hn); [lia |].
  unfold forecast_horizon in Hc, Hn. rewrite Hterm, Z.add_0_r in Hc, Hn.
  split; assumption.
Qed.

Lemma zero_term_skips_amortization_witness :
  exists f,
    forecast zero_term_scenario = Ok f /\
    Forall2 (row_for zero_term_scenario) (py_range2 1 3) (data f) /\
    cashflow_data f = py_zeros 2 /\
    net_cashflow_data f = py_zeros 2.
Proof.
  apply (zero_term_skips_amortization zero_term_scenario);
    [discriminate | reflexivity].
Defined.

(** C6 as stated fails: at a loan term of 0 (two months, the other widgets
    at their defaults) the loop raises no exception at all and returns the
    two series as zeros. *)
Lemma zero_term_is_not_rejected :
  (forall e, forecast zero_term_scenario <> Raise e) /\
  exists f,
    forecast zero_term_scenario = Ok f /\
    cashflow_data f = [0; 0]%Q /\
    net_cashflow_data f = [0; 0]%Q.
Proof.
  split.
  - intros e. vm_compute. discriminate.
  - eexists. split; [vm_compute; reflexivity |]. split; reflexivity.
Qed.

(** C5: whenever the maximum loan size is at most the minimum, a run of the
    script shows the range error and stops: it yields no monthly records, no
    totals and no cashflow series, and the saved scenarios are not touched. *)
Theorem invalid_range_stops (w : Sidebar) (saved_scenarios : gmap pystr Snapshot) :
  (max_loan_size w <= min_loan_size w)%Q ->
  app w saved_scenarios = Stopped MinNotLessThanMax.
Proof.
  intros Hrange. unfold app.
  apply Qle_bool_iff in Hrange. now rewrite Hrange.
Qed.

Lemma invalid_range_stops_witness :
  app (with_loan_sizes 1500 1500 default_sidebar) ∅ = Stopped MinNotLessThanMax.
Proof.
  apply (invalid_range_stops (with_loan_sizes 1500 1500 default_sidebar) ∅).
  discriminate.
Defined.

(** ** Properties of the scenario store *)

Lemma py_lstrip_blank (s : pystr) :
  forallb is_space s = true -> py_lstrip s = [].
Proof.
  induction s as [| c s IH]; [reflexivity |]. cbn [forallb py_lstrip].
  intros H. apply andb_prop in H as [Hc Hs]. rewrite Hc. now apply IH.
Qed.

Lemma py_lstrip_not_blank (s : pystr) :
  forallb is_space s = false ->
  exists c s', py_lstrip s = c :: s' /\ is_space c = false.
Proof.
  induction s as [| c s IH]; [discriminate |]. cbn [forallb py_lstrip].
  destruct (is_space c) eqn:Hc.
  - cbn [andb]. exact IH.
  - intros _. now exists c, s.
Qed.

Lemma forallb_is_space_rev (s : pystr) :
  forallb is_space (rev s) = forallb is_space s.
Proof.
  induction s as [| c s IH]; [reflexivity |].
  cbn [rev forallb]. rewrite forallb_app, IH. cbn [forallb].
  rewrite andb_true_r. apply andb_comm.
Qed.

(** [name.strip()] is the empty string exactly when every character of
    [name] is whitespace. *)
Lemma str_truthy_strip (s : pystr) :
  str_truthy (py_strip s) = negb (forallb is_space s).
Proof.
  unfold py_strip, py_rstrip.
  destruct (forallb is_space s) eqn:Hs.
  - rewrite (py_lstrip_blank s Hs). reflexivity.
  - destruct (py_lstrip_not_blank s Hs) as (c & s' & -> & Hc).
    destruct (py_lstrip_not_blank (rev (c :: s'))) as (d & t & -> & _).
    + rewrite forallb_is_space_rev. cbn [forallb]. now rewrite Hc.
    + cbn [rev negb]. now destruct (rev t).
Qed.

(** C7: for a name that is empty or all whitespace, saving shows the request
    for a name and leaves the saved scenarios as they were; for any other
    name the snapshot is stored under that name, replacing what was stored
    there, and every other entry is kept. *)
Theorem save_scenario_spec
    (name : pystr) (snapshot : Snapshot) (saved_scenarios : gmap pystr Snapshot) :
  (forallb is_space name = true ->
   save_scenario name snapshot saved_scenarios =
     (saved_scenarios, EnterScenarioName)) /\
  (forallb is_space name = false ->
   save_scenario name snapshot saved_scenarios =
     (<[name := snapshot]> saved_scenarios, SavedScenario name) /\
   (save_scenario name snapshot saved_scenarios).1 !! name = Some snapshot /\
   forall other, other <> name ->
     (save_scenario name snapshot saved_scenarios).1 !! other =
     saved_scenarios !! other).
Proof.
  unfold save_scenario. rewrite str_truthy_strip. split; intros ->; cbn.
  - reflexivity.
  - split; [reflexivity |]. split.
    + apply lookup_insert_eq.
    + intros other Hne. apply lookup_insert_ne. congruence.
Qed.

Lemma save_scenario_spec_witness :
  save_scenario [32; 9]%N default_snapshot ∅ = (∅, EnterScenarioName) /\
  (save_scenario [65; 32]%N other_snapshot (<[ [65; 32]%N := default_snapshot ]> ∅) =
     (<[ [65; 32]%N := other_snapshot ]> (<[ [65; 32]%N := default_snapshot ]> ∅),
      SavedScenario [65; 32]%N) /\
   (save_scenario [65; 32]%N other_snapshot
      (<[ [65; 32]%N := default_snapshot ]> ∅)).1 !! [65; 32]%N =
     Some other_snapshot /\
   forall other, other <> [65; 32]%N ->
     (save_scenario [65; 32]%N other_snapshot
        (<[ [65; 32]%N := default_snapshot ]> ∅)).1 !! other =
     (<[ [65; 32]%N := default_snapshot ]> (∅ : gmap pystr Snapshot)) !! other).
Proof.
  split.
  - apply (proj1 (save_scenario_spec [32; 9]%N default_snapshot ∅)). reflexivity.
  - apply (proj2 (save_scenario_spec [65; 32]%N other_snapshot
                    (<[ [65; 32]%N := default_snapshot ]> ∅))).
    reflexivity.
Defined.

(** ** Properties of the growth metric *)

(** For a horizon above one month and positive first and last volumes the
    metric is ((last / first) ** (1 / months) - 1) * 100. *)
Lemma avg_growth_positive (n : Z) (df : list Row) (first final : Row) :
  1 < n -> head df = Some first -> last df = Some final ->
  (0 < row_lending first)%Q -> (0 < row_lending final)%Q ->
  avg_growth n df =
  Ok (Finite ((Rpower (Q2R (row_lending final / row_lending first)) (1 / IZR n) - 1)
              * 100)%R).
Proof.
  intros Hn Hfirst Hlast Hpos1 Hpos2. unfold avg_growth.
  destruct (Z.gtb_spec n 1) as [_ | Hle]; [| lia].
  rewrite Hfirst, Hlast.
  assert (Hratio : (0 < row_lending final / row_lending first)%Q).
  { apply Qlt_shift_div_l; [exact Hpos1 |]. now rewrite Qmult_0_l. }
  destruct (Qeq_bool (row_lending first) 0) eqn:E1.
  { apply Qeq_bool_eq in E1. rewrite E1 in Hpos1. discriminate Hpos1. }
  destruct (Qeq_bool (row_lending final / row_lending first) 0) eqn:E2.
  { apply Qeq_bool_eq in E2. rewrite E2 in Hratio. discriminate Hratio. }
  destruct (Qle_bool 0 (row_lending final / row_lending first)) eqn:E3.
  - reflexivity.
  - apply Qlt_le_weak, Qle_bool_iff in Hratio. congruence.
Qed.

Lemma avg_growth_single_month (n : Z) (df : list Row) :
  n <= 1 -> avg_growth n df = Ok (Finite 0%R).
Proof.
  intros Hn. unfold avg_growth.
  destruct (Z.gtb_spec n 1) as [Hgt | _]; [lia | reflexivity].
Qed.

Lemma Q2R_2 : Q2R 2 = 2%R.
Proof. unfold Q2R. cbn [Qnum Qden]. lra. Qed.

Lemma sqrt_2_bounds : (1.41 < sqrt 2 < 1.42)%R.
Proof.
  assert (Hsq : (sqrt 2 * sqrt 2 = 2)%R) by (apply sqrt_sqrt; lra).
  assert (Hpos : (0 <= sqrt 2)%R) by apply sqrt_pos.
  split; nra.
Qed.

(** C1 on the script: with the widgets at their defaults except a growth of
    100% and a horizon of 2 months, the volumes are 2,000,000 and 4,000,000
    and the metric is (2 ** (1/2) - 1) * 100, about 41.4, because the
    exponent is 1 / months; the formula with 1 / (months - 1) gives a growth
    of 1, that is 100%.  For a horizon of one month the metric is 0. *)
Theorem avg_growth_exponent_is_months :
  (exists f first final,
      forecast doubling_scenario = Ok f /\
      head (data f) = Some first /\
      last (data f) = Some final /\
      (row_lending first == 2000000)%Q /\
      (row_lending final == 4000000)%Q /\
      avg_growth (months doubling_scenario) (data f) =
        Ok (Finite ((sqrt 2 - 1) * 100)%R) /\
      (Rpower (Q2R (row_lending final / row_lending first))
              (1 / IZR (months doubling_scenario - 1)) - 1 = 1)%R) /\
  (41 < (sqrt 2 - 1) * 100 < 42)%R /\
  (forall df, avg_growth 1 df = Ok (Finite 0%R)).
Proof.
  split; [| split].
  - assert (Hrun : exists f, forecast doubling_scenario = Ok f)
      by (eexists; vm_compute; reflexivity).
    destruct Hrun as (f & Hrun). exists f.
    assert (Hrun' := Hrun). vm_compute in Hrun'.
    injection Hrun' as <-.
    eexists. eexists.
    split; [exact Hrun |]. split; [reflexivity |]. split; [reflexivity |].
    split; [reflexivity |]. split; [reflexivity |].
    split.
    + erewrite avg_growth_positive;
        [ | reflexivity | reflexivity | reflexivity | reflexivity | reflexivity ].
      cbn [row_lending]. rewrite (Qeq_eqR _ 2), Q2R_2 by reflexivity.
      change (months doubling_scenario) with 2.
      replace (1 / 2)%R with (/ 2)%R by lra.
      rewrite Rpower_sqrt by lra. reflexivity.
    + cbn [row_lending]. rewrite (Qeq_eqR _ 2), Q2R_2 by reflexivity.
      change (months doubling_scenario - 1) with 1.
      replace (1 / 1)%R with 1%R by lra.
      rewrite Rpower_1 by lra. lra.
  - pose proof sqrt_2_bounds. lra.
  - intros df. apply avg_growth_single_month. lia.
Qed.

(** ** Further properties of the monthly metrics *)

Lemma py_int_opp (x : Q) : py_int (- x) = - py_int x.
Proof.
  destruct x as [n d]. unfold py_int. cbn [Qopp Qnum Qden].
  apply Z.quot_opp_l. lia.
Qed.

Lemma py_int_ceiling (x : Q) : (x <= 0)%Q -> py_int x = Qceiling x.
Proof.
  intros Hx. unfold Qceiling. rewrite <- py_int_floor.
  - rewrite py_int_opp. lia.
  - lra.
Qed.

(** [int] gives the same integer on equal rationals. *)
Lemma py_int_comp (x y : Q) : (x == y)%Q -> py_int x = py_int y.
Proof.
  intros Hxy. destruct (Qlt_le_dec x 0) as [Hneg | Hpos].
  - rewrite !py_int_ceiling by lra. now rewrite Hxy.
  - rewrite !py_int_floor by lra. now rewrite Hxy.
Qed.

(** X1: With no growth the lending volume of every month is the initial volume,
    and so is the number of loans funded. *)
Theorem zero_growth_constant_volume
    (month : Z) (il g avg rpl cpf bdpl fc vcp : Q) :
  1 <= month -> ~ (avg == 0)%Q -> (g == 0)%Q ->
  exists m,
    calculate_monthly_metrics month il g avg rpl cpf bdpl fc vcp = Ok m /\
    (monthly_lending m == il)%Q /\
    loans_this_month m = py_int (il / avg)%Q.
Proof.
  intros Hm Havg Hg.
  pose proof (calculate_monthly_metrics_returns month il g avg rpl cpf bdpl fc vcp
                Hm Havg) as Hret.
  cbv zeta in Hret. eexists. split; [exact Hret |]. cbn.
  assert (Hvol : (il * (1 + g) ^ (month - 1) == il)%Q).
  { assert (Hbase : (1 + g == 1)%Q) by (rewrite Hg; ring).
    rewrite Hbase, Qpower_1. ring. }
  split; [exact Hvol |]. apply py_int_comp. now rewrite Hvol.
Qed.

Lemma zero_growth_constant_volume_witness :
  exists m,
    metrics_of default_sidebar 9 = Ok m /\
    (monthly_lending m == 2000000)%Q /\
    loans_this_month m = py_int (2000000 / avg_loan_size default_sidebar)%Q.
Proof.
  apply (zero_growth_constant_volume 9); [lia | discriminate | reflexivity].
Defined.

(** X2: Growth compounds: the lending volume of a month is that of the month
    before times (1 + growth rate). *)
Theorem lending_volume_compounds
    (month : Z) (il g avg rpl cpf bdpl fc vcp : Q) :
  1 <= month -> ~ (avg == 0)%Q ->
  exists m m',
    calculate_monthly_metrics month il g avg rpl cpf bdpl fc vcp = Ok m /\
    calculate_monthly_metrics (month + 1) il g avg rpl cpf bdpl fc vcp = Ok m' /\
    (monthly_lending m' == monthly_lending m * (1 + g))%Q.
Proof.
  intros Hm Havg.
  pose proof (calculate_monthly_metrics_returns month il g avg rpl cpf bdpl fc vcp
                Hm Havg) as Hret.
  assert (Hm' : 1 <= month + 1) by lia.
  pose proof (calculate_monthly_metrics_returns (month + 1) il g avg rpl cpf bdpl
                fc vcp Hm' Havg) as Hret'.
  cbv zeta in Hret, Hret'. eexists. eexists.
  split; [exact Hret |]. split; [exact Hret' |]. cbn.
  replace (month + 1 - 1) with ((month - 1) + 1) by lia.
  rewrite Qpower_plus' by lia. rewrite Qpower_1_r. ring.
Qed.

Lemma lending_volume_compounds_witness :
  exists m m',
    metrics_of (with_growth 10 default_sidebar) 4 = Ok m /\
    metrics_of (with_growth 10 default_sidebar) (4 + 1) = Ok m' /\
    (monthly_lending m' ==
     monthly_lending m * (1 + loan_growth_rate (with_growth 10 default_sidebar)))%Q.
Proof.
  apply (lending_volume_compounds 4); [lia | discriminate].
Defined.

(** X3: For valid parameters the loans funded are never negative, their value at
    the average loan size never exceeds the month's lending volume, and less
    than one average loan is left unfunded. *)
Theorem funded_value_within_volume (w : Sidebar) (month : Z) :
  valid_parameters w -> 1 <= month ->
  exists m,
    metrics_of w month = Ok m /\
    0 <= loans_this_month m /\
    (inject_Z (loans_this_month m) * avg_loan_size w <= monthly_lending m)%Q /\
    (monthly_lending m < (inject_Z (loans_this_month m) + 1) * avg_loan_size w)%Q.
Proof.
  intros Hv Hm.
  pose proof (valid_avg_loan_size_pos w Hv) as Hpos.
  pose proof (calculate_monthly_metrics_returns month (initial_lending w)
                (loan_growth_rate w) (avg_loan_size w) (revenue_per_loan w)
                (cost_per_funded w) (bad_debt_per_loan w) (fixed_costs w)
                (variable_cost_pct w) Hm (valid_avg_loan_size_nonzero w Hv))
    as Hret.
  cbv zeta in Hret. eexists. split; [exact Hret |]. cbn.
  pose proof (monthly_lending_nonneg w month Hv) as Hvol.
  set (vol := (initial_lending w * (1 + loan_growth_rate w) ^ (month - 1))%Q) in *.
  assert (Hq : (0 <= vol / avg_loan_size w)%Q).
  { apply Qle_shift_div_l; [exact Hpos |]. now rewrite Qmult_0_l. }
  rewrite (py_int_floor _ Hq).
  assert (Hback : (vol / avg_loan_size w * avg_loan_size w == vol)%Q).
  { field. intros E. rewrite E in Hpos. discriminate Hpos. }
  split; [| split].
  - change 0 with (Qfloor 0). now apply Qfloor_resp_le.
  - rewrite <- Hback at 2.
    apply Qmult_le_compat_r; [apply Qfloor_le | now apply Qlt_le_weak].
  - rewrite <- Hback at 1.
    apply Qmult_lt_compat_r; [exact Hpos |].
    pose proof (Qlt_floor (vol / avg_loan_size w)) as Hlt.
    rewrite inject_Z_plus in Hlt. exact Hlt.
Qed.

Lemma funded_value_within_volume_witness :
  exists m,
    metrics_of (with_growth 10 default_sidebar) 6 = Ok m /\
    0 <= loans_this_month m /\
    (inject_Z (loans_this_month m) * avg_loan_size (with_growth 10 default_sidebar)
     <= monthly_lending m)%Q /\
    (monthly_lending m <
     (inject_Z (loans_this_month m) + 1) *
     avg_loan_size (with_growth 10 default_sidebar))%Q.
Proof.
  apply (funded_value_within_volume (with_growth 10 default_sidebar) 6); [| lia].
  unfold valid_parameters. repeat split; discriminate.
Defined.

(** Whatever record the function returns is built by its formulas. *)
Lemma calculate_monthly_metrics_inv
    (month : Z) (il g avg rpl cpf bdpl fc vcp : Q) (m : Metrics) :
  calculate_monthly_metrics month il g avg rpl cpf bdpl fc vcp = Ok m ->
  monthly_lending m = (il * (1 + g) ^ (month - 1))%Q /\
  loans_this_month m = py_int (monthly_lending m / avg)%Q /\
  revenue m = (inject_Z (loans_this_month m) * rpl)%Q /\
  cost m = (inject_Z (loans_this_month m) * cpf)%Q /\
  provision m = (inject_Z (loans_this_month m) * bdpl)%Q /\
  variable_cost m = (revenue m * vcp)%Q /\
  net_contribution m = (revenue m - cost m - provision m - variable_cost m)%Q /\
  total_expenditure m = (cost m + provision m + variable_cost m + fc)%Q /\
  net_cashflow m = (revenue m - total_expenditure m)%Q.
Proof.
  unfold calculate_monthly_metrics, py_pow, py_truediv.
  destruct ((month - 1 <? 0) && Qeq_bool (1 + g) 0); [discriminate |].
  cbn [bind]. destruct (Qeq_bool avg 0); [discriminate |].
  cbn [bind]. intros [= <-]. cbn. repeat split.
Qed.

(** X4: With a growth rate that is not negative, neither the lending volume nor
    the number of loans funded ever falls from one month to the next. *)
Theorem growth_never_shrinks_loans (w : Sidebar) (month : Z) :
  valid_parameters w -> (0 <= loan_growth_slider w)%Q -> 1 <= month ->
  exists m m',
    metrics_of w month = Ok m /\
    metrics_of w (month + 1) = Ok m' /\
    (monthly_lending m <= monthly_lending m')%Q /\
    loans_this_month m <= loans_this_month m'.
Proof.
  intros Hv Hg Hm.
  pose proof (valid_avg_loan_size_pos w Hv) as Hpos.
  pose proof (valid_avg_loan_size_nonzero w Hv) as Hnz.
  destruct (metrics_of_runs w month Hnz Hm) as (m & Hret).
  destruct (metrics_of_runs w (month + 1) Hnz) as (m' & Hret'); [lia |].
  exists m, m'. split; [exact Hret |]. split; [exact Hret' |].
  pose proof (calculate_monthly_metrics_inv _ _ _ _ _ _ _ _ _ _ Hret)
    as (Hvol & Hloans & _).
  pose proof (calculate_monthly_metrics_inv _ _ _ _ _ _ _ _ _ _ Hret')
    as (Hvol' & Hloans' & _).
  assert (Hnn : (0 <= monthly_lending m)%Q).
  { rewrite Hvol. now apply monthly_lending_nonneg. }
  assert (Hstep : (monthly_lending m' ==
                   monthly_lending m * (1 + loan_growth_rate w))%Q).
  { rewrite Hvol, Hvol'.
    replace (month + 1 - 1) with ((month - 1) + 1) by lia.
    rewrite Qpower_plus' by lia. rewrite Qpower_1_r. ring. }
  assert (Hrate : (0 <= loan_growth_rate w)%Q).
  { unfold loan_growth_rate. apply Qle_shift_div_l; [reflexivity | lra]. }
  assert (Hle : (monthly_lending m <= monthly_lending m')%Q).
  { rewrite Hstep. nra. }
  split; [exact Hle |].
  rewrite Hloans, Hloans'.
  assert (Hq : (0 <= monthly_lending m / avg_loan_size w)%Q).
  { apply Qle_shift_div_l; [exact Hpos |]. now rewrite Qmult_0_l. }
  assert (Hqle : (monthly_lending m / avg_loan_size w <=
                  monthly_lending m' / avg_loan_size w)%Q).
  { apply Qmult_le_compat_r; [exact Hle |].
    apply Qlt_le_weak, Qinv_lt_0_compat, Hpos. }
  rewrite !py_int_floor by lra. now apply Qfloor_resp_le.
Qed.

Lemma growth_never_shrinks_loans_witness :
  exists m m',
    metrics_of (with_growth 10 default_sidebar) 3 = Ok m /\
    metrics_of (with_growth 10 default_sidebar) (3 + 1) = Ok m' /\
    (monthly_lending m <= monthly_lending m')%Q /\
    loans_this_month m <= loans_this_month m'.
Proof.
  apply (growth_never_shrinks_loans (with_growth 10 default_sidebar) 3);
    [| discriminate | lia].
  unfold valid_parameters. repeat split; discriminate.
Defined.


(** ** Properties of the unit economics *)

(** X6: Revenue per loan grows in proportion to the average loan size and to the
    term, and at the baseline loan (an average size of 300 over 3 months) it
    is the base revenue. *)
Theorem revenue_per_loan_scaling (w : Sidebar) :
  (revenue_per_loan w ==
   revenue_per_loan_base w * avg_loan_size w * inject_Z (loan_term w) / 900)%Q /\
  ((avg_loan_size w == 300)%Q -> loan_term w = 3 ->
   (revenue_per_loan w == revenue_per_loan_base w)%Q).
Proof.
  unfold revenue_per_loan, loan_size_factor, loan_term_factor. split.
  - field.
  - intros Havg ->. rewrite Havg. field.
Qed.

Lemma revenue_per_loan_scaling_witness :
  (revenue_per_loan (with_loan_sizes 250 350 default_sidebar) ==
   revenue_per_loan_base (with_loan_sizes 250 350 default_sidebar))%Q.
Proof.
  apply (proj2 (revenue_per_loan_scaling (with_loan_sizes 250 350 default_sidebar)));
    reflexivity.
Defined.

(** X7: With both rate sliders between 0 and 100 and an average loan size that is
    not negative, the bad debt per loan lies between 0 and the average loan
    size; a recovery of 100% makes it 0 and no recovery makes it the average
    loan size times the bad debt rate. *)
Theorem bad_debt_per_loan_bounds (w : Sidebar) :
  ((0 <= avg_loan_size w)%Q ->
   (0 <= bad_debt_slider w <= 100)%Q -> (0 <= recovery_slider w <= 100)%Q ->
   (0 <= bad_debt_per_loan w <= avg_loan_size w)%Q) /\
  ((recovery_slider w == 100)%Q -> (bad_debt_per_loan w == 0)%Q) /\
  ((recovery_slider w == 0)%Q ->
   (bad_debt_per_loan w == avg_loan_size w * bad_debt_rate w)%Q).
Proof.
  unfold bad_debt_per_loan, bad_debt_rate, recovery_rate.
  split; [| split].
  - intros Havg [Hb0 Hb1] [Hr0 Hr1].
    set (a := avg_loan_size w) in *.
    assert (Hb : (0 <= bad_debt_slider w / 100 <= 1)%Q).
    { split; [apply Qle_shift_div_l | apply Qle_shift_div_r];
        try reflexivity; lra. }
    assert (Hr : (0 <= 1 - recovery_slider w / 100 <= 1)%Q).
    { assert (0 <= recovery_slider w / 100 <= 1)%Q; [| lra].
      split; [apply Qle_shift_div_l | apply Qle_shift_div_r];
        try reflexivity; lra. }
    set (b := (bad_debt_slider w / 100)%Q) in *.
    set (r := (1 - recovery_slider w / 100)%Q) in *.
    assert (Hab : (0 <= a * b <= a)%Q) by nra.
    split; nra.
  - intros Hr. rewrite Hr. field.
  - intros Hr. rewrite Hr. field.
Qed.

Lemma bad_debt_per_loan_bounds_witness :
  (0 <= bad_debt_per_loan default_sidebar <= avg_loan_size default_sidebar)%Q.
Proof.
  apply (proj1 (bad_debt_per_loan_bounds default_sidebar));
    [discriminate | split; discriminate | split; discriminate].
Defined.

Lemma margin_positive_revenue (w : Sidebar) :
  (0 < revenue_per_loan w)%Q ->
  margin w = (net_contribution_per_loan w / revenue_per_loan w * 100)%Q.
Proof.
  intros Hpos. unfold margin.
  destruct (Qle_bool (revenue_per_loan w) 0) eqn:E; [| reflexivity].
  apply Qle_bool_iff in E. lra.
Qed.

(** X8: The margin is never computed by a division by zero: without a positive
    revenue per loan it is 0.  With costs that are not negative it is at most
    100, and with a positive revenue per loan it is positive exactly when the
    net contribution per loan is. *)
Theorem margin_bounds (w : Sidebar) :
  ((revenue_per_loan w <= 0)%Q -> margin w = 0%Q) /\
  ((0 <= cost_per_funded w)%Q -> (0 <= bad_debt_per_loan w)%Q ->
   (margin w <= 100)%Q) /\
  ((0 < revenue_per_loan w)%Q ->
   ((0 < margin w)%Q <-> (0 < net_contribution_per_loan w)%Q)).
Proof.
  split; [| split].
  - intros Hle. unfold margin. apply Qle_bool_iff in Hle. now rewrite Hle.
  - intros Hc Hb. destruct (Qlt_le_dec 0 (revenue_per_loan w)) as [Hpos | Hle].
    + rewrite (margin_positive_revenue w Hpos).
      assert (Hratio : (net_contribution_per_loan w / revenue_per_loan w <= 1)%Q).
      { apply Qle_shift_div_r; [exact Hpos |].
        unfold net_contribution_per_loan. lra. }
      lra.
    + unfold margin. apply Qle_bool_iff in Hle. rewrite Hle. discriminate.
  - intros Hpos. rewrite (margin_positive_revenue w Hpos). split.
    + intros Hm.
      assert (Hq : (0 < net_contribution_per_loan w / revenue_per_loan w)%Q) by lra.
      apply Qmult_lt_compat_r with (z := revenue_per_loan w) in Hq; [| exact Hpos].
      rewrite Qmult_0_l in Hq.
      assert (Hback : (net_contribution_per_loan w / revenue_per_loan w *
                       revenue_per_loan w == net_contribution_per_loan w)%Q)
        by (field; lra).
      now rewrite Hback in Hq.
    + intros Hn.
      assert (Hq : (0 < net_contribution_per_loan w / revenue_per_loan w)%Q).
      { apply Qlt_shift_div_l; [exact Hpos |]. now rewrite Qmult_0_l. }
      lra.
Qed.

Lemma margin_bounds_witness :
  (margin default_sidebar <= 100)%Q /\
  ((0 < margin default_sidebar)%Q <->
   (0 < net_contribution_per_loan default_sidebar)%Q) /\
  margin (with_term 0 default_sidebar) = 0%Q.
Proof.
  split; [| split].
  - apply (proj1 (proj2 (margin_bounds default_sidebar))); discriminate.
  - apply (proj2 (proj2 (margin_bounds default_sidebar))). reflexivity.
  - apply (proj1 (margin_bounds (with_term 0 default_sidebar))). discriminate.
Defined.

(** ** Further properties of the forecast loop *)

Lemma rows_follow_months (w : Sidebar) (ms : list Z) (rows : list Row) :
  Forall2 (row_for w) ms rows ->
  map row_month rows = ms /\
  Forall (fun r => row_fixed_costs r = fixed_costs w) rows.
Proof.
  induction 1 as [| month row ms rows (m & _ & ->) _ (IHm & IHf)].
  - split; [reflexivity | constructor].
  - split; [cbn; now rewrite IHm | constructor; [reflexivity | exact IHf]].
Qed.

(** X9: The table has one row per month, numbered 1 to [months] in order, and
    every row carries the fixed monthly overhead; for a horizon that is not
    positive the table is empty. *)
Theorem forecast_table_rows (w : Sidebar) :
  ~ (avg_loan_size w == 0)%Q ->
  exists f,
    forecast w = Ok f /\
    map row_month (data f) = py_range2 1 (months w + 1) /\
    length (data f) = Z.to_nat (months w) /\
    Forall (fun r => row_fixed_costs r = fixed_costs w) (data f).
Proof.
  intros Havg.
  destruct (forecast_spec w Havg) as (f & Hrun & _ & _ & _ & Hrows & _).
  destruct (rows_follow_months w _ _ Hrows) as (Hmonths & Hfixed).
  exists f. split; [exact Hrun |]. split; [exact Hmonths |].
  split; [| exact Hfixed].
  rewrite <- (length_map row_month), Hmonths, length_py_range2.
  f_equal. lia.
Qed.

Lemma forecast_table_rows_witness :
  exists f,
    forecast default_sidebar = Ok f /\
    map row_month (data f) = [1; 2; 3; 4; 5; 6; 7; 8; 9; 10; 11; 12] /\
    length (data f) = 12%nat /\
    Forall (fun r => row_fixed_costs r = 25000%Q) (data f).
Proof.
  apply (forecast_table_rows default_sidebar). discriminate.
Defined.

(** *** The amount in each slot of the two series *)

Lemma py_range2_cons (lo hi : Z) :
  lo < hi -> py_range2 lo hi = lo :: py_range2 (lo + 1) hi.
Proof.
  intros Hlt. unfold py_range2.
  replace (Z.to_nat (hi - lo)) with (S (Z.to_nat (hi - (lo + 1)))) by lia.
  cbn [seq map]. f_equal; [lia |].
  rewrite <- seq_shift, map_map. apply map_ext. intros k. lia.
Qed.

Lemma py_range2_nil (lo hi : Z) : hi <= lo -> py_range2 lo hi = [].
Proof.
  intros Hle. unfold py_range2. now replace (Z.to_nat (hi - lo)) with 0%nat by lia.
Qed.

(** A loop over a range, with an invariant that refers to the next index. *)
Lemma for_each_range_invariant {S : Type} (body : Z -> S -> result S)
    (P : Z -> S -> Prop) (hi : Z) :
  forall (n : nat) (lo : Z) (s : S),
    Z.of_nat n = hi - lo ->
    P lo s ->
    (forall i s0, lo <= i < hi -> P i s0 ->
       exists s1, body i s0 = Ok s1 /\ P (i + 1) s1) ->
    exists s', for_each (py_range2 lo hi) body s = Ok s' /\ P hi s'.
Proof.
  induction n as [| n IH]; intros lo s Hn HP Hstep.
  - rewrite py_range2_nil by lia. exists s. split; [reflexivity |].
    now replace hi with lo by lia.
  - rewrite py_range2_cons by lia. cbn [for_each].
    destruct (Hstep lo s) as (s1 & Hbody & HP1); [lia | exact HP |].
    rewrite Hbody. cbn [bind]. apply IH; [lia | exact HP1 |].
    intros i s0 Hi. apply Hstep. lia.
Qed.

Lemma nth_alter_add (l : list Q) (i k : nat) (v : Q) :
  (i < length l)%nat ->
  (nth k (alter (fun x => x + v) i l) 0 ==
   nth k l 0 + (if Nat.eqb k i then v else 0))%Q.
Proof.
  revert i k. induction l as [| x l IH]; intros i k Hi; cbn [length] in Hi; [lia |].
  destruct i as [| i]; destruct k as [| k]; cbn.
  - reflexivity.
  - ring.
  - ring.
  - apply IH. lia.
Qed.

Lemma nth_py_zeros (n : Z) (k : nat) : nth k (py_zeros n) 0%Q = 0%Q.
Proof. unfold py_zeros. apply nth_repeat. Qed.

Lemma window_grows (month i : Z) (k : nat) (v : Q) :
  1 <= month -> 0 <= i ->
  ((if (month - 1 <=? Z.of_nat k) && (Z.of_nat k <? month - 1 + i) then v else 0) +
   (if Nat.eqb k (Z.to_nat (month - 1 + i)) then v else 0) ==
   if (month - 1 <=? Z.of_nat k) && (Z.of_nat k <? month - 1 + (i + 1))
   then v else 0)%Q.
Proof.
  intros Hmonth Hi.
  destruct (Z.leb_spec (month - 1) (Z.of_nat k));
    destruct (Z.ltb_spec (Z.of_nat k) (month - 1 + i));
    destruct (Z.ltb_spec (Z.of_nat k) (month - 1 + (i + 1)));
    destruct (Nat.eqb_spec k (Z.to_nat (month - 1 + i)));
    cbn [andb]; try lia; ring.
Qed.

(** The inner loop, slot by slot: the [t] slots from index [month - 1] on
    each receive one instalment, every other slot is left as it was. *)
Lemma repayment_loop_pointwise (month t : Z) (rep expense : Q) (f : Forecast) :
  1 <= month -> 0 <= t ->
  month - 1 + t <= Z.of_nat (length (cashflow_data f)) ->
  length (net_cashflow_data f) = length (cashflow_data f) ->
  exists f',
    for_each (py_range t) (repayment_body month rep expense) f = Ok f' /\
    data f' = data f /\
    length (cashflow_data f') = length (cashflow_data f) /\
    length (net_cashflow_data f') = length (cashflow_data f) /\
    (forall k,
       (nth k (cashflow_data f') 0 ==
        nth k (cashflow_data f) 0 +
        (if (month - 1 <=? Z.of_nat k) && (Z.of_nat k <? month - 1 + t)
         then rep else 0))%Q) /\
    (forall k,
       (nth k (net_cashflow_data f') 0 ==
        nth k (net_cashflow_data f) 0 +
        (if (month - 1 <=? Z.of_nat k) && (Z.of_nat k <? month - 1 + t)
         then rep - expense else 0))%Q) /\
    (Qsum (net_cashflow_data f') ==
     Qsum (net_cashflow_data f) + inject_Z t * (rep - expense))%Q.
Proof.
  intros Hmonth Ht Hfit Hnet.
  pose (P := fun (i : Z) (g : Forecast) =>
    data g = data f /\
    length (cashflow_data g) = length (cashflow_data f) /\
    length (net_cashflow_data g) = length (cashflow_data f) /\
    (forall k,
       (nth k (cashflow_data g) 0 ==
        nth k (cashflow_data f) 0 +
        (if (month - 1 <=? Z.of_nat k) && (Z.of_nat k <? month - 1 + i)
         then rep else 0))%Q) /\
    (forall k,
       (nth k (net_cashflow_data g) 0 ==
        nth k (net_cashflow_data f) 0 +
        (if (month - 1 <=? Z.of_nat k) && (Z.of_nat k <? month - 1 + i)
         then rep - expense else 0))%Q) /\
    (Qsum (net_cashflow_data g) ==
     Qsum (net_cashflow_data f) + inject_Z i * (rep - expense))%Q).
  assert (Hnone : forall (k : nat) (v : Q),
            (if (month - 1 <=? Z.of_nat k) && (Z.of_nat k <? month - 1 + 0)
             then v else 0%Q) = 0%Q).
  { intros k v. destruct (Z.leb_spec (month - 1) (Z.of_nat k));
      destruct (Z.ltb_spec (Z.of_nat k) (month - 1 + 0)); cbn [andb];
      try reflexivity; lia. }
  unfold py_range.
  apply (for_each_range_invariant _ P t (Z.to_nat t) 0 f); [lia | |].
  - unfold P. repeat split; try assumption.
    + intros k. rewrite Hnone. ring.
    + intros k. rewrite Hnone. ring.
    + change (inject_Z 0) with 0%Q. ring.
  - intros i g Hi (Hd & Hc & Hn & Hcash & Hnets & Hsum).
    assert (Hidx : 0 <= month - 1 + i < Z.of_nat (length (cashflow_data g)))
      by (rewrite Hc; lia).
    unfold repayment_body.
    destruct (Z.ltb_spec (month - 1 + i) (Z.of_nat (length (cashflow_data g))))
      as [_ | Hge]; [| lia].
    rewrite py_iadd_in_range by exact Hidx. cbn [bind].
    rewrite py_iadd_in_range by (rewrite Hn, <- Hc; exact Hidx). cbn [bind].
    eexists. split; [reflexivity |]. unfold P. cbn.
    rewrite !length_alter.
    split; [exact Hd |]. split; [exact Hc |]. split; [exact Hn |].
    split; [| split].
    + intros k. rewrite nth_alter_add by lia. rewrite Hcash.
      rewrite <- (window_grows month i k rep) by lia. ring.
    + intros k. rewrite nth_alter_add by lia. rewrite Hnets.
      rewrite <- (window_grows month i k (rep - expense)) by lia. ring.
    + rewrite Qsum_alter_add by lia. rewrite Hsum, inject_Z_plus.
      change (inject_Z 1) with 1%Q. ring.
Qed.

(** One pass of the outer loop, slot by slot. *)
Lemma month_body_pointwise (w : Sidebar) (month : Z) (f : Forecast) :
  ~ (avg_loan_size w == 0)%Q ->
  1 <= month ->
  (0 < loan_term w ->
   month - 1 + loan_term w <= Z.of_nat (length (cashflow_data f))) ->
  length (net_cashflow_data f) = length (cashflow_data f) ->
  exists m f',
    metrics_of w month = Ok m /\
    month_body w month f = Ok f' /\
    data f' = data f ++ [row_of w month m] /\
    length (cashflow_data f') = length (cashflow_data f) /\
    length (net_cashflow_data f') = length (cashflow_data f) /\
    (forall k,
       (nth k (cashflow_data f') 0 ==
        nth k (cashflow_data f) 0 +
        (if in_window (loan_term w) (row_of w month m) (Z.of_nat k)
         then revenue m / inject_Z (loan_term w) else 0))%Q) /\
    (forall k,
       (nth k (net_cashflow_data f') 0 ==
        nth k (net_cashflow_data f) 0 +
        (if in_window (loan_term w) (row_of w month m) (Z.of_nat k)
         then net_cashflow m / inject_Z (loan_term w) else 0))%Q) /\
    (0 < loan_term w ->
     (Qsum (net_cashflow_data f') == Qsum (net_cashflow_data f) + net_cashflow m)%Q).
Proof.
  intros Havg Hmonth Hfit Hnet.
  destruct (metrics_of_runs w month Havg Hmonth) as (m & Hm).
  pose proof (calculate_monthly_metrics_inv _ _ _ _ _ _ _ _ _ _ Hm)
    as (_ & _ & _ & _ & _ & _ & _ & _ & Hncf).
  exists m. unfold month_body. rewrite Hm. cbn [bind].
  unfold in_window. cbn [row_of row_month].
  destruct (Z.gtb_spec (loan_term w) 0) as [Hpos | Hnonpos].
  - assert (Hterm : ~ (inject_Z (loan_term w) == 0)%Q).
    { unfold Qeq. cbn. lia. }
    rewrite !py_truediv_returns by exact Hterm. cbn [bind].
    assert (Hinst : (revenue m / inject_Z (loan_term w) -
                     total_expenditure m / inject_Z (loan_term w) ==
                     net_cashflow m / inject_Z (loan_term w))%Q).
    { rewrite Hncf. field. exact Hterm. }
    match goal with
    | |- context [for_each _ (repayment_body _ ?rep ?expense) ?f1] =>
        destruct (repayment_loop_pointwise month (loan_term w) rep expense f1)
          as (f' & Hrun & Hd & Hc & Hn & Hcash & Hnets & Hsum)
    end.
    + exact Hmonth.
    + lia.
    + cbn. apply Hfit. lia.
    + cbn. exact Hnet.
    + exists f'. cbn in Hd, Hc, Hn, Hcash, Hnets, Hsum.
      split; [reflexivity |]. split; [exact Hrun |].
      split; [exact Hd |]. split; [exact Hc |]. split; [exact Hn |].
      split; [exact Hcash |]. split.
      * intros k. rewrite Hnets.
        destruct ((month - 1 <=? Z.of_nat k) &&
                  (Z.of_nat k <? month - 1 + loan_term w));
          [now rewrite Hinst | reflexivity].
      * intros _. rewrite Hsum, Hinst. field. exact Hterm.
  - assert (Hnone : forall (k : nat) (v : Q),
              (if (month - 1 <=? Z.of_nat k) &&
                  (Z.of_nat k <? month - 1 + loan_term w)
               then v else 0%Q) = 0%Q).
    { intros k v. destruct (Z.leb_spec (month - 1) (Z.of_nat k));
        destruct (Z.ltb_spec (Z.of_nat k) (month - 1 + loan_term w));
        cbn [andb]; try reflexivity; lia. }
    eexists. split; [reflexivity |]. split; [reflexivity |]. cbn.
    split; [reflexivity |]. split; [reflexivity |]. split; [exact Hnet |].
    split; [| split].
    + intros k. rewrite Hnone. ring.
    + intros k. rewrite Hnone. ring.
    + intros Hpos. lia.
Qed.

Lemma repayment_due_snoc (term : Z) (rows : list Row) (r : Row) (k : Z) :
  (repayment_due term (rows ++ [r]) k ==
   repayment_due term rows k +
   (if in_window term r k then row_revenue r / inject_Z term else 0))%Q.
Proof.
  unfold repayment_due. rewrite map_app, Qsum_app. cbn [map].
  rewrite Qsum_cons. change (Qsum []) with 0%Q. ring.
Qed.

Lemma net_repayment_due_snoc (term : Z) (rows : list Row) (r : Row) (k : Z) :
  (net_repayment_due term (rows ++ [r]) k ==
   net_repayment_due term rows k +
   (if in_window term r k then row_net_cashflow r / inject_Z term else 0))%Q.
Proof.
  unfold net_repayment_due. rewrite map_app, Qsum_app. cbn [map].
  rewrite Qsum_cons. change (Qsum []) with 0%Q. ring.
Qed.

(** The whole loop, slot by slot. *)
Lemma forecast_pointwise (w : Sidebar) :
  ~ (avg_loan_size w == 0)%Q ->
  exists f,
    forecast w = Ok f /\
    length (cashflow_data f) = Z.to_nat (forecast_horizon w) /\
    length (net_cashflow_data f) = Z.to_nat (forecast_horizon w) /\
    Forall2 (row_for w) (py_range2 1 (months w + 1)) (data f) /\
    (forall k,
       (nth k (cashflow_data f) 0 ==
        repayment_due (loan_term w) (data f) (Z.of_nat k))%Q) /\
    (forall k,
       (nth k (net_cashflow_data f) 0 ==
        net_repayment_due (loan_term w) (data f) (Z.of_nat k))%Q) /\
    (0 < loan_term w ->
     (Qsum (net_cashflow_data f) == Qsum (map row_net_cashflow (data f)))%Q).
Proof.
  intros Havg.
  pose (P := fun (seen : list Z) (f : Forecast) =>
    length (cashflow_data f) = Z.to_nat (forecast_horizon w) /\
    length (net_cashflow_data f) = Z.to_nat (forecast_horizon w) /\
    Forall2 (row_for w) seen (data f) /\
    (forall k,
       (nth k (cashflow_data f) 0 ==
        repayment_due (loan_term w) (data f) (Z.of_nat k))%Q) /\
    (forall k,
       (nth k (net_cashflow_data f) 0 ==
        net_repayment_due (loan_term w) (data f) (Z.of_nat k))%Q) /\
    (0 < loan_term w ->
     (Qsum (net_cashflow_data f) == Qsum (map row_net_cashflow (data f)))%Q)).
  destruct (for_each_invariant (month_body w) P (py_range2 1 (months w + 1))
              [] (forecast_init w)) as (f & Hrun & HP).
  - unfold P, forecast_init. cbn.
    rewrite length_py_zeros. repeat split; try reflexivity.
    + constructor.
    + intros k. now rewrite nth_py_zeros.
    + intros k. now rewrite nth_py_zeros.
    + intros _. apply Qsum_py_zeros.
  - intros seen month f Hin (Hc & Hn & Hrows & Hcash & Hnets & Hsum).
    apply in_py_range2 in Hin.
    destruct (month_body_pointwise w month f Havg) as
      (m & f' & Hm & Hbody & Hd' & Hc' & Hn' & Hcash' & Hnets' & Hsum').
    + lia.
    + intros Hterm. rewrite Hc. unfold forecast_horizon. lia.
    + now rewrite Hn, Hc.
    + exists f'. split; [exact Hbody |]. unfold P.
      split; [now rewrite Hc' |]. split; [now rewrite Hn' |].
      split; [| split; [| split]].
      * rewrite Hd'. apply Forall2_app; [exact Hrows |].
        constructor; [| constructor]. exists m. split; [exact Hm | reflexivity].
      * intros k. rewrite Hcash', Hcash, Hd', repayment_due_snoc. reflexivity.
      * intros k. rewrite Hnets', Hnets, Hd', net_repayment_due_snoc. reflexivity.
      * intros Hterm. rewrite Hsum' by exact Hterm. rewrite Hsum by exact Hterm.
        rewrite Hd', map_app, Qsum_app. cbn [map]. rewrite Qsum_cons.
        change (Qsum []) with 0%Q. cbn [row_of row_net_cashflow]. ring.
  - exists f. split; [exact Hrun | exact HP].
Qed.

(** X10: What the accumulating loop leaves in the two series is what an
    independent computation gives: slot [k] of [cashflow_data] holds, summed
    over the rows whose [term] repayment slots from index [row_month - 1] on
    include [k], revenue / term; slot [k] of [net_cashflow_data] holds the
    same sum of net cashflow / term. *)
Theorem amortization_slot_amounts (w : Sidebar) :
  ~ (avg_loan_size w == 0)%Q ->
  exists f,
    forecast w = Ok f /\
    (forall (k : nat) (x : Q), cashflow_data f !! k = Some x ->
       (x == repayment_due (loan_term w) (data f) (Z.of_nat k))%Q) /\
    (forall (k : nat) (x : Q), net_cashflow_data f !! k = Some x ->
       (x == net_repayment_due (loan_term w) (data f) (Z.of_nat k))%Q).
Proof.
  intros Havg.
  destruct (forecast_pointwise w Havg) as (f & Hrun & _ & _ & _ & Hcash & Hnets & _).
  exists f. split; [exact Hrun |]. split.
  - intros k x Hk. rewrite <- (nth_lookup_Some _ _ 0%Q _ Hk). apply Hcash.
  - intros k x Hk. rewrite <- (nth_lookup_Some _ _ 0%Q _ Hk). apply Hnets.
Qed.

Lemma amortization_slot_amounts_witness :
  exists f,
    forecast doubling_scenario = Ok f /\
    (forall (k : nat) (x : Q), cashflow_data f !! k = Some x ->
       (x == repayment_due 3 (data f) (Z.of_nat k))%Q) /\
    (forall (k : nat) (x : Q), net_cashflow_data f !! k = Some x ->
       (x == net_repayment_due 3 (data f) (Z.of_nat k))%Q).
Proof.
  apply (amortization_slot_amounts doubling_scenario). discriminate.
Defined.

Lemma repayment_due_outside (term : Z) (rows : list Row) (k : Z) :
  (forall r, In r rows -> in_window term r k = false) ->
  (repayment_due term rows k == 0)%Q /\ (net_repayment_due term rows k == 0)%Q.
Proof.
  unfold repayment_due, net_repayment_due.
  induction rows as [| r rows IH]; intros Hout; [split; reflexivity |].
  cbn [map]. rewrite !Qsum_cons, (Hout r (or_introl eq_refl)).
  destruct IH as (IH1 & IH2); [intros r' Hr'; apply Hout; now right |].
  rewrite IH1, IH2. split; ring.
Qed.

(** X11: Both series are allocated one slot longer than the amortization ever
    reaches: whenever they are not empty, their last slot is 0. *)
Theorem last_slot_stays_zero (w : Sidebar) :
  ~ (avg_loan_size w == 0)%Q -> 0 < months w + loan_term w ->
  exists f x y,
    forecast w = Ok f /\
    last (cashflow_data f) = Some x /\ (x == 0)%Q /\
    last (net_cashflow_data f) = Some y /\ (y == 0)%Q.
Proof.
  intros Havg Hlen.
  destruct (forecast_pointwise w Havg)
    as (f & Hrun & Hc & Hn & Hrows & Hcash & Hnets & _).
  destruct (rows_follow_months w _ _ Hrows) as (Hmonths & _).
  unfold forecast_horizon in Hc, Hn.
  set (k := Nat.pred (Z.to_nat (months w + loan_term w))).
  assert (Hout : forall r, In r (data f) ->
            in_window (loan_term w) r (Z.of_nat k) = false).
  { intros r Hr. apply (in_map row_month) in Hr. rewrite Hmonths in Hr.
    apply in_py_range2 in Hr. unfold in_window.
    destruct (Z.leb_spec (row_month r - 1) (Z.of_nat k));
      destruct (Z.ltb_spec (Z.of_nat k) (row_month r - 1 + loan_term w));
      cbn [andb]; try reflexivity. lia. }
  destruct (repayment_due_outside (loan_term w) (data f) (Z.of_nat k) Hout)
    as (Hz1 & Hz2).
  destruct (lookup_lt_is_Some_2 (cashflow_data f) k) as (x & Hx); [lia |].
  destruct (lookup_lt_is_Some_2 (net_cashflow_data f) k) as (y & Hy); [lia |].
  exists f, x, y. split; [exact Hrun |].
  rewrite !last_lookup, Hc, Hn. fold k.
  split; [exact Hx |]. split.
  - rewrite <- (nth_lookup_Some _ _ 0%Q _ Hx), Hcash. exact Hz1.
  - split; [exact Hy |].
    rewrite <- (nth_lookup_Some _ _ 0%Q _ Hy), Hnets. exact Hz2.
Qed.

Lemma last_slot_stays_zero_witness :
  exists f x y,
    forecast default_sidebar = Ok f /\
    last (cashflow_data f) = Some x /\ (x == 0)%Q /\
    last (net_cashflow_data f) = Some y /\ (y == 0)%Q.
Proof.
  apply (last_slot_stays_zero default_sidebar); [discriminate | reflexivity].
Defined.

(** ** Properties of the totals *)

Lemma rows_totals (w : Sidebar) (ms : list Z) (rows : list Row) :
  Forall2 (row_for w) ms rows ->
  let loans := inject_Z (fold_right Z.add 0 (map row_loans rows)) in
  (Qsum (map row_revenue rows) == loans * revenue_per_loan w)%Q /\
  (Qsum (map row_cost rows) == loans * cost_per_funded w)%Q /\
  (Qsum (map row_provision rows) == loans * bad_debt_per_loan w)%Q /\
  (Qsum (map row_variable_cost rows) ==
   Qsum (map row_revenue rows) * variable_cost_pct w)%Q /\
  (Qsum (map row_fixed_costs rows) ==
   inject_Z (Z.of_nat (length rows)) * fixed_costs w)%Q /\
  (Qsum (map row_net_contribution rows) - Qsum (map row_net_cashflow rows) ==
   inject_Z (Z.of_nat (length rows)) * fixed_costs w)%Q.
Proof.
  induction 1 as [| month row ms rows (m & Hm & ->) _ IH].
  - cbn. change (Qsum []) with 0%Q. repeat split; ring.
  - cbv zeta in IH. destruct IH as (Hrev & Hcost & Hprov & Hvar & Hfix & Hgap).
    pose proof (calculate_monthly_metrics_inv _ _ _ _ _ _ _ _ _ _ Hm)
      as (_ & _ & Er & Ec & Ep & Ev & En & Et & Ef).
    cbv zeta. cbn [map fold_right length row_of row_loans row_revenue row_cost
                   row_provision row_variable_cost row_fixed_costs
                   row_net_contribution row_net_cashflow].
    rewrite !Qsum_cons, Nat2Z.inj_succ, inject_Z_plus.
    unfold Z.succ. rewrite inject_Z_plus. change (inject_Z 1) with 1%Q.
    rewrite Hrev, Hcost, Hprov, Hfix.
    repeat split.
    + rewrite Er. ring.
    + rewrite Ec. ring.
    + rewrite Ep. ring.
    + rewrite Hvar, Ev, Hrev. ring.
    + ring.
    + rewrite Ef, Et, En.
      match goal with
      | |- (?lhs == _)%Q =>
          assert (Hsplit : (lhs == fixed_costs w +
                     (Qsum (map row_net_contribution rows) -
                      Qsum (map row_net_cashflow rows)))%Q) by ring
      end.
      rewrite Hsplit, Hgap. ring.
Qed.

(** X12: The total row scales with the total number of loans: total revenue, cost
    and provision are the total loans times the per-loan figure, and total
    variable cost is total revenue times the variable cost fraction.  So
    total revenue divided by a positive number of total loans is the revenue
    per loan. *)
Theorem totals_scale_with_loans (w : Sidebar) :
  ~ (avg_loan_size w == 0)%Q ->
  exists f,
    forecast w = Ok f /\
    let t := total_row (data f) in
    (total_revenue t == inject_Z (total_loans t) * revenue_per_loan w)%Q /\
    (total_cost t == inject_Z (total_loans t) * cost_per_funded w)%Q /\
    (total_provision t == inject_Z (total_loans t) * bad_debt_per_loan w)%Q /\
    (total_variable_cost t == total_revenue t * variable_cost_pct w)%Q /\
    (0 < total_loans t ->
     (total_revenue t / inject_Z (total_loans t) == revenue_per_loan w)%Q).
Proof.
  intros Havg.
  destruct (forecast_spec w Havg) as (f & Hrun & _ & _ & _ & Hrows & _).
  pose proof (rows_totals w _ _ Hrows) as Htot. cbv zeta in Htot.
  destruct Htot as (Hrev & Hcost & Hprov & Hvar & _).
  exists f. split; [exact Hrun |]. cbv zeta. cbn [total_row total_revenue
    total_loans total_cost total_provision total_variable_cost].
  split; [exact Hrev |]. split; [exact Hcost |]. split; [exact Hprov |].
  split; [exact Hvar |].
  intros Hloans. rewrite Hrev. field. unfold Qeq. cbn. lia.
Qed.

Lemma totals_scale_with_loans_witness :
  exists f,
    forecast default_sidebar = Ok f /\
    let t := total_row (data f) in
    (total_revenue t == inject_Z (total_loans t) * revenue_per_loan default_sidebar)%Q /\
    (total_cost t == inject_Z (total_loans t) * cost_per_funded default_sidebar)%Q /\
    (total_provision t ==
     inject_Z (total_loans t) * bad_debt_per_loan default_sidebar)%Q /\
    (total_variable_cost t ==
     total_revenue t * variable_cost_pct default_sidebar)%Q /\
    (0 < total_loans t ->
     (total_revenue t / inject_Z (total_loans t) ==
      revenue_per_loan default_sidebar)%Q).
Proof.
  apply (totals_scale_with_loans default_sidebar). discriminate.
Defined.

(** X13: Over the whole table the fixed overhead is charged once per month: the
    Fixed Costs total is [months] times the overhead, and total net
    contribution exceeds total net cashflow by exactly that amount. *)
Theorem totals_overhead_gap (w : Sidebar) :
  ~ (avg_loan_size w == 0)%Q -> 0 <= months w ->
  exists f,
    forecast w = Ok f /\
    let t := total_row (data f) in
    (total_fixed_costs t == inject_Z (months w) * fixed_costs w)%Q /\
    (total_net_contribution t - total_net_cashflow t ==
     inject_Z (months w) * fixed_costs w)%Q.
Proof.
  intros Havg Hmonths.
  destruct (forecast_spec w Havg) as (f & Hrun & _ & _ & _ & Hrows & _).
  pose proof (rows_totals w _ _ Hrows) as Htot. cbv zeta in Htot.
  destruct Htot as (_ & _ & _ & _ & Hfix & Hgap).
  pose proof (Forall2_length _ _ _ Hrows) as Hlen.
  rewrite length_py_range2 in Hlen.
  assert (Hn : Z.of_nat (length (data f)) = months w) by lia.
  rewrite Hn in Hfix, Hgap.
  exists f. split; [exact Hrun |]. cbv zeta. cbn [total_row total_fixed_costs
    total_net_contribution total_net_cashflow].
  split; assumption.
Qed.

Lemma totals_overhead_gap_witness :
  exists f,
    forecast default_sidebar = Ok f /\
    let t := total_row (data f) in
    (total_fixed_costs t == inject_Z 12 * 25000)%Q /\
    (total_net_contribution t - total_net_cashflow t == inject_Z 12 * 25000)%Q.
Proof.
  apply (totals_overhead_gap default_sidebar); [discriminate | discriminate].
Defined.

(** X14: For a term of at least one month the sum of [net_cashflow_data] over all
    its slots is the Net Cashflow total of the table: the amortization moves
    the net cashflow between months without changing its total. *)
Theorem net_series_conserves_net_cashflow (w : Sidebar) :
  ~ (avg_loan_size w == 0)%Q -> 1 <= loan_term w ->
  exists f,
    forecast w = Ok f /\
    (Qsum (net_cashflow_data f) == total_net_cashflow (total_row (data f)))%Q.
Proof.
  intros Havg Hterm.
  destruct (forecast_pointwise w Havg) as (f & Hrun & _ & _ & _ & _ & _ & Hsum).
  exists f. split; [exact Hrun |]. cbn [total_row total_net_cashflow].
  apply Hsum. lia.
Qed.

Lemma net_series_conserves_net_cashflow_witness :
  exists f,
    forecast default_sidebar = Ok f /\
    (Qsum (net_cashflow_data f) == total_net_cashflow (total_row (data f)))%Q.
Proof.
  apply (net_series_conserves_net_cashflow default_sidebar);
    [discriminate | cbn; lia].
Defined.

(** ** Properties of a run of the script *)

Lemma app_forecast (w : Sidebar) (saved_scenarios : gmap pystr Snapshot) :
  (min_loan_size w < max_loan_size w)%Q -> ~ (avg_loan_size w == 0)%Q ->
  exists f,
    forecast w = Ok f /\
    app w saved_scenarios =
    (let '(saved1, shown1) :=
       if save_button w then
         let '(m, msg) := save_scenario (scenario_name w) (snapshot_of w f)
                            saved_scenarios in
         (m, [msg])
       else (saved_scenarios, []) in
     let '(saved2, shown2) :=
       if negb (bool_decide (saved1 = ∅)) && clear_button w
       then (∅, shown1 ++ [AllCleared])
       else (saved1, shown1) in
     Rendered f (total_row (data f)) shown2 saved2).
Proof.
  intros Hrange Havg.
  destruct (forecast_spec w Havg) as (f & Hrun & _).
  exists f. split; [exact Hrun |]. unfold app.
  destruct (Qle_bool (max_loan_size w) (min_loan_size w)) eqn:E.
  - apply Qle_bool_iff in E. lra.
  - rewrite Hrun. reflexivity.
Qed.

(** X15: With loan sizes as the widgets allow them (a positive minimum below the
    maximum) a run neither stops nor raises: it renders the forecast and its
    total row, whatever the other inputs and the buttons. *)
Theorem app_renders (w : Sidebar) (saved_scenarios : gmap pystr Snapshot) :
  (0 < min_loan_size w)%Q -> (min_loan_size w < max_loan_size w)%Q ->
  exists f shown saved',
    forecast w = Ok f /\
    app w saved_scenarios = Rendered f (total_row (data f)) shown saved'.
Proof.
  intros Hmin Hrange.
  assert (Havg : ~ (avg_loan_size w == 0)%Q).
  { intros E. assert (Hpos : (0 < avg_loan_size w)%Q).
    { unfold avg_loan_size. apply Qlt_shift_div_l; [reflexivity | lra]. }
    rewrite E in Hpos. discriminate Hpos. }
  destruct (app_forecast w saved_scenarios Hrange Havg) as (f & Hrun & Happ).
  exists f. rewrite Happ.
  destruct (save_button w); [destruct (save_scenario _ _ _) as [m msg] |];
    match goal with
    | |- context [if ?b then _ else _] => destruct b
    end; eexists; eexists; (split; [exact Hrun | reflexivity]).
Qed.

Lemma app_renders_witness :
  exists f shown saved',
    forecast default_sidebar = Ok f /\
    app default_sidebar ∅ = Rendered f (total_row (data f)) shown saved'.
Proof.
  apply (app_renders default_sidebar ∅); reflexivity.
Defined.



(** X17: A click on "Save Scenario" (and none on "Clear All Scenarios"): under a
    name that is not blank the run's own table, totals and both series are
    what a later lookup of that name finds, and every other saved scenario is
    kept; under a blank name only the request for a name is shown. *)
Theorem save_click_stores_run
    (w : Sidebar) (saved_scenarios : gmap pystr Snapshot) :
  (min_loan_size w < max_loan_size w)%Q -> ~ (avg_loan_size w == 0)%Q ->
  save_button w = true -> clear_button w = false ->
  exists f,
    forecast w = Ok f /\
    (forallb is_space (scenario_name w) = false ->
     exists saved',
       app w saved_scenarios =
         Rendered f (total_row (data f)) [SavedScenario (scenario_name w)] saved' /\
       (exists snap,
          saved' !! scenario_name w = Some snap /\
          snap_df snap = data f /\
          snap_total snap = total_row (data f) /\
          snap_cashflow snap = cashflow_data f /\
          snap_net_cashflow snap = net_cashflow_data f) /\
       (forall other, other <> scenario_name w ->
          saved' !! other = saved_scenarios !! other)) /\
    (forallb is_space (scenario_name w) = true ->
     app w saved_scenarios =
       Rendered f (total_row (data f)) [EnterScenarioName] saved_scenarios).
Proof.
  intros Hrange Havg Hsave Hclear.
  destruct (app_forecast w saved_scenarios Hrange Havg) as (f & Hrun & Happ).
  exists f. split; [exact Hrun |].
  rewrite Happ, Hsave, Hclear. unfold save_scenario.
  rewrite str_truthy_strip. split; intros ->; cbn [negb].
  - eexists. rewrite andb_false_r. split; [reflexivity |]. split.
    + exists (snapshot_of w f). split; [apply lookup_insert_eq |].
      repeat split.
    + intros other Hne. apply lookup_insert_ne. congruence.
  - rewrite andb_false_r. reflexivity.
Qed.

Lemma save_click_stores_run_witness :
  exists f,
    forecast (with_buttons true false default_sidebar) = Ok f /\
    (forallb is_space (scenario_name (with_buttons true false default_sidebar)) = false ->
     exists saved',
       app (with_buttons true false default_sidebar) ∅ =
         Rendered f (total_row (data f))
           [SavedScenario (scenario_name (with_buttons true false default_sidebar))]
           saved' /\
       (exists snap,
          saved' !! scenario_name (with_buttons true false default_sidebar) =
            Some snap /\
          snap_df snap = data f /\
          snap_total snap = total_row (data f) /\
          snap_cashflow snap = cashflow_data f /\
          snap_net_cashflow snap = net_cashflow_data f) /\
       (forall other,
          other <> scenario_name (with_buttons true false default_sidebar) ->
          saved' !! other = (∅ : gmap pystr Snapshot) !! other)) /\
    (forallb is_space (scenario_name (with_buttons true false default_sidebar)) = true ->
     app (with_buttons true false default_sidebar) ∅ =
       Rendered f (total_row (data f)) [EnterScenarioName] ∅).
Proof.
  apply (save_click_stores_run (with_buttons true false default_sidebar) ∅);
    [reflexivity | discriminate | reflexivity | reflexivity].
Defined.

(** X18: A run with "Clear All Scenarios" clicked always ends with no saved
    scenario, also when a scenario was saved in the same run; the
    confirmation is shown exactly when there was something to clear. *)
Theorem clear_click_empties_store
    (w : Sidebar) (saved_scenarios : gmap pystr Snapshot) :
  (min_loan_size w < max_loan_size w)%Q -> ~ (avg_loan_size w == 0)%Q ->
  clear_button w = true ->
  exists f shown,
    forecast w = Ok f /\
    app w saved_scenarios = Rendered f (total_row (data f)) shown ∅ /\
    (save_button w = false ->
     shown = if bool_decide (saved_scenarios = ∅) then [] else [AllCleared]).
Proof.
  intros Hrange Havg Hclear.
  destruct (app_forecast w saved_scenarios Hrange Havg) as (f & Hrun & Happ).
  exists f. rewrite Happ, Hclear.
  destruct (save_button w).
  - destruct (save_scenario _ _ _) as [m msg].
    destruct (bool_decide_reflect (m = ∅)) as [-> | Hne]; cbn;
      eexists; (split; [exact Hrun |]); (split; [reflexivity | discriminate]).
  - destruct (bool_decide_reflect (saved_scenarios = ∅)) as [-> | Hne]; cbn;
      eexists; (split; [exact Hrun |]); (split; [reflexivity | intros _ ]).
    + reflexivity.
    + reflexivity.
Qed.

Lemma clear_click_empties_store_witness :
  exists f shown,
    forecast (with_buttons true true default_sidebar) = Ok f /\
    app (with_buttons true true default_sidebar)
        (<[ [65]%N := default_snapshot ]> ∅) =
      Rendered f (total_row (data f)) shown ∅ /\
    (save_button (with_buttons true true default_sidebar) = false ->
     shown = if bool_decide ((<[ [65]%N := default_snapshot ]> ∅ : gmap pystr Snapshot) = ∅)
             then [] else [AllCleared]).
Proof.
  apply (clear_click_empties_store (with_buttons true true default_sidebar));
    [reflexivity | discriminate | reflexivity].
Defined.

(** ** Properties of the download's file name *)

(** X19: The file name is the scenario name with every space replaced by an
    underscore, followed by [_forecast.xlsx]: it never contains a space, it
    is 14 characters longer than the scenario name, characters other than
    the space stay where they are, and a name without spaces is kept as it
    is. *)
Theorem file_name_has_no_space (w : Sidebar) :
  (forall c, In c (file_name w) -> c <> 32%N) /\
  length (file_name w) = (length (scenario_name w) + 14)%nat /\
  (forall i c, scenario_name w !! i = Some c ->
     file_name w !! i = Some (if (c =? 32)%N then 95%N else c)) /\
  (~ In 32%N (scenario_name w) ->
   file_name w = scenario_name w ++ forecast_suffix).
Proof.
  unfold file_name, py_replace_char. split; [| split; [| split]].
  - intros c Hin. apply in_app_or in Hin as [Hin | Hin].
    + apply in_map_iff in Hin as (d & <- & _).
      destruct (N.eqb_spec d 32); [discriminate | assumption].
    + intros ->. cbn in Hin. intuition discriminate.
  - now rewrite length_app, length_map.
  - intros i c Hi. rewrite lookup_app_l.
    + now rewrite list_lookup_fmap_Some_2 with (x := c).
    + rewrite length_map. now apply lookup_lt_Some with (x := c).
  - intros Hno. f_equal. induction (scenario_name w) as [| c s IH]; [reflexivity |].
    cbn [map]. destruct (N.eqb_spec c 32) as [-> | Hc].
    + exfalso. apply Hno. now left.
    + f_equal. apply IH. intros Hin. apply Hno. now right.
Qed.

Lemma file_name_has_no_space_witness :
  file_name (with_name [66; 97; 115; 101]%N default_sidebar) =
  [66; 97; 115; 101]%N ++ forecast_suffix.
Proof.
  apply (proj2 (proj2 (proj2
           (file_name_has_no_space (with_name [66; 97; 115; 101]%N default_sidebar))))).
  cbn. intuition discriminate.
Defined.

(** ** Further properties of the growth metric *)

Lemma py_range2_snoc (lo hi : Z) :
  lo <= hi -> py_range2 lo (hi + 1) = py_range2 lo hi ++ [hi].
Proof.
  intros Hle. unfold py_range2.
  replace (Z.to_nat (hi + 1 - lo)) with (S (Z.to_nat (hi - lo))) by lia.
  rewrite seq_S, map_app. cbn [map]. do 2 f_equal. lia.
Qed.

(** From a horizon of one month on, the table starts with the row of month 1
    and ends with the row of the last month. *)
Lemma forecast_first_last (w : Sidebar) (rows : list Row) :
  Forall2 (row_for w) (py_range2 1 (months w + 1)) rows -> 1 <= months w ->
  exists m1 mN,
    metrics_of w 1 = Ok m1 /\ head rows = Some (row_of w 1 m1) /\
    metrics_of w (months w) = Ok mN /\ last rows = Some (row_of w (months w) mN).
Proof.
  intros Hrows Hmonths.
  assert (Hhead : exists m1, metrics_of w 1 = Ok m1 /\ head rows = Some (row_of w 1 m1)).
  { rewrite py_range2_cons in Hrows by lia.
    inversion Hrows as [| x r xs rs (m1 & Hm1 & ->) _]; subst.
    exists m1. split; [exact Hm1 | reflexivity]. }
  destruct Hhead as (m1 & Hm1 & Hhead).
  rewrite py_range2_snoc in Hrows by lia.
  apply Forall2_app_inv_l in Hrows as (k1 & k2 & _ & Hlast & ->).
  inversion Hlast as [| x r xs rs (mN & HmN & ->) Hnil]; subst.
  inversion Hnil; subst.
  exists m1, mN. split; [exact Hm1 |]. split; [exact Hhead |].
  split; [exact HmN |]. apply last_snoc.
Qed.

Lemma Q2R_pow_nat (q : Q) (n : nat) : Q2R (q ^ Z.of_nat n) = (Q2R q ^ n)%R.
Proof.
  induction n as [| n IH].
  - change (Q2R 1 = 1%R). unfold Q2R. cbn [Qnum Qden]. lra.
  - rewrite Nat2Z.inj_succ. unfold Z.succ.
    rewrite (Qeq_eqR _ (q ^ Z.of_nat n * q)).
    + rewrite Q2R_mult, IH. cbn [pow]. ring.
    + rewrite Qpower_plus' by lia. now rewrite Qpower_1_r.
Qed.

(** A power with an exponent strictly between 0 and 1 lies strictly between
    1 and its base. *)
Lemma Rpower_between (x a : R) :
  (0 < x)%R -> (0 < a < 1)%R ->
  (x = 1%R -> Rpower x a = 1%R) /\
  ((1 < x)%R -> (1 < Rpower x a < x)%R) /\
  ((x < 1)%R -> (x < Rpower x a < 1)%R).
Proof.
  intros Hx [Ha0 Ha1]. split; [| split].
  - intros ->. unfold Rpower. rewrite ln_1, Rmult_0_r. apply exp_0.
  - intros Hgt. split.
    + rewrite <- (Rpower_O x Hx). apply Rpower_lt; assumption.
    + pose proof (Rpower_lt x a 1 Hgt Ha1) as Hlt.
      now rewrite (Rpower_1 x Hx) in Hlt.
  - intros Hlt.
    assert (Hln : (ln x < 0)%R) by (rewrite <- ln_1; apply ln_increasing; lra).
    unfold Rpower. split.
    + rewrite <- (exp_ln x Hx) at 1. apply exp_increasing. nra.
    + rewrite <- exp_0. apply exp_increasing. nra.
Qed.

Lemma ratio_of_horizon (n : Z) :
  1 < n -> (0 < IZR (n - 1) / IZR n < 1)%R.
Proof.
  intros Hn. rewrite minus_IZR.
  assert (HM : (1 < IZR n)%R) by (apply IZR_lt; exact Hn).
  set (M := IZR n) in *.
  assert (Hi : (0 < / M)%R) by (apply Rinv_0_lt_compat; lra).
  assert (HiM : (/ M * M = 1)%R) by (apply Rinv_l; lra).
  unfold Rdiv. split; nra.
Qed.

Lemma Q2R_one_plus (g : Q) : Q2R (1 + g) = (1 + Q2R g)%R.
Proof. rewrite Q2R_plus. f_equal. unfold Q2R. cbn [Qnum Qden]. lra. Qed.

(** Between the first and the last of [n] rows a constant rate [g] is applied
    [n - 1] times, and the metric takes the [n]-th root of the ratio: what it
    shows is (1 + g) ** ((n - 1) / n) - 1. *)
Lemma growth_ratio_power (il b : Q) (n : Z) :
  (0 < il)%Q -> (0 < b)%Q -> 1 < n ->
  Rpower (Q2R (il * b ^ (n - 1) / (il * b ^ (1 - 1)))) (1 / IZR n) =
  Rpower (Q2R b) (IZR (n - 1) / IZR n).
Proof.
  intros Hil Hb Hn.
  assert (HbR : (0 < Q2R b)%R).
  { apply Qlt_Rlt in Hb. unfold Q2R at 1 in Hb. cbn [Qnum Qden] in Hb. lra. }
  rewrite (Qeq_eqR _ (b ^ Z.of_nat (Z.to_nat (n - 1)))).
  - rewrite Q2R_pow_nat, <- Rpower_pow by exact HbR.
    rewrite Rpower_mult. f_equal.
    rewrite INR_IZR_INZ, Z2Nat.id by lia. unfold Rdiv. ring.
  - rewrite Z2Nat.id by lia. change (1 - 1) with 0. rewrite Qpower_0_r.
    field. intros E. rewrite E in Hil. discriminate Hil.
Qed.

(** X20: What "Avg Monthly Growth" shows for a forecast of more than one month
    with growth rate g > -100%: ((1 + g) ** ((months - 1) / months) - 1) * 100.
    It is 0 for no growth; for any other rate it has the sign of the rate but
    is strictly closer to 0 than the rate applied (g * 100). *)
Theorem avg_growth_of_constant_rate (w : Sidebar) :
  (0 < initial_lending w)%Q -> ~ (avg_loan_size w == 0)%Q ->
  (- (1) < loan_growth_rate w)%Q -> 1 < months w ->
  exists f v,
    forecast w = Ok f /\
    avg_growth (months w) (data f) = Ok (Finite v) /\
    v = ((Rpower (Q2R (1 + loan_growth_rate w))
                 (IZR (months w - 1) / IZR (months w)) - 1) * 100)%R /\
    ((loan_growth_rate w == 0)%Q -> v = 0%R) /\
    ((0 < loan_growth_rate w)%Q ->
     (0 < v < Q2R (loan_growth_rate w) * 100)%R) /\
    ((loan_growth_rate w < 0)%Q ->
     (Q2R (loan_growth_rate w) * 100 < v < 0)%R).
Proof.
  intros Hil Havg Hg Hmonths.
  destruct (forecast_spec w Havg) as (f & Hrun & _ & _ & _ & Hrows & _).
  destruct (forecast_first_last w (data f) Hrows)
    as (m1 & mN & Hm1 & Hhead & HmN & Hlast); [lia |].
  pose proof (calculate_monthly_metrics_inv _ _ _ _ _ _ _ _ _ _ Hm1) as (Hv1 & _).
  pose proof (calculate_monthly_metrics_inv _ _ _ _ _ _ _ _ _ _ HmN) as (HvN & _).
  set (b := (1 + loan_growth_rate w)%Q) in *.
  assert (Hb : (0 < b)%Q) by (unfold b; lra).
  assert (HbR : (0 < Q2R b)%R).
  { apply Qlt_Rlt in Hb. unfold Q2R at 1 in Hb. cbn [Qnum Qden] in Hb. lra. }
  assert (Hpos : forall z, (0 < initial_lending w * b ^ z)%Q).
  { intros z. pose proof (Qpower_0_lt b z Hb). nra. }
  pose proof (ratio_of_horizon (months w) Hmonths) as Ha.
  destruct (Rpower_between (Q2R b) _ HbR Ha) as (Hone & Hup & Hdown).
  assert (HbQ : Q2R b = (1 + Q2R (loan_growth_rate w))%R) by apply Q2R_one_plus.
  exists f. eexists. split; [exact Hrun |]. split; [| split; [reflexivity |]].
  - rewrite (avg_growth_positive (months w) (data f) _ _ Hmonths Hhead Hlast).
    + cbn [row_of row_lending]. rewrite Hv1, HvN.
      now rewrite (growth_ratio_power _ b _ Hil Hb Hmonths).
    + cbn [row_of row_lending]. rewrite Hv1. apply Hpos.
    + cbn [row_of row_lending]. rewrite HvN. apply Hpos.
  - split; [| split].
    + intros Hz. rewrite Hone; [lra |].
      rewrite HbQ, (Qeq_eqR _ 0 Hz). unfold Q2R. cbn [Qnum Qden]. lra.
    + intros Hgt. apply Qlt_Rlt in Hgt. unfold Q2R at 1 in Hgt.
      cbn [Qnum Qden] in Hgt. destruct Hup as [Hlo Hhi]; lra.
    + intros Hlt. apply Qlt_Rlt in Hlt. unfold Q2R at 2 in Hlt.
      cbn [Qnum Qden] in Hlt. destruct Hdown as [Hlo Hhi]; lra.
Qed.

Lemma avg_growth_of_constant_rate_witness :
  exists f v,
    forecast (with_growth 10 default_sidebar) = Ok f /\
    avg_growth (months (with_growth 10 default_sidebar)) (data f) = Ok (Finite v) /\
    v = ((Rpower (Q2R (1 + loan_growth_rate (with_growth 10 default_sidebar)))
                 (IZR (months (with_growth 10 default_sidebar) - 1) /
                  IZR (months (with_growth 10 default_sidebar))) - 1) * 100)%R /\
    ((loan_growth_rate (with_growth 10 default_sidebar) == 0)%Q -> v = 0%R) /\
    ((0 < loan_growth_rate (with_growth 10 default_sidebar))%Q ->
     (0 < v < Q2R (loan_growth_rate (with_growth 10 default_sidebar)) * 100)%R) /\
    ((loan_growth_rate (with_growth 10 default_sidebar) < 0)%Q ->
     (Q2R (loan_growth_rate (with_growth 10 default_sidebar)) * 100 < v < 0)%R).
Proof.
  apply (avg_growth_of_constant_rate (with_growth 10 default_sidebar));
    [reflexivity | discriminate | reflexivity | reflexivity].
Defined.

(** ** When the forecast loop raises *)


(** ** Unit economics and the monthly record *)

(** X22: The month's net contribution is the number of loans times the net
    contribution per loan, less the variable cost: the per-loan figure leaves
    the variable cost out. *)
Theorem net_contribution_from_unit_economics (w : Sidebar) (month : Z) :
  ~ (avg_loan_size w == 0)%Q -> 1 <= month ->
  exists m,
    metrics_of w month = Ok m /\
    (net_contribution m ==
     inject_Z (loans_this_month m) * net_contribution_per_loan w
     - variable_cost m)%Q /\
    (variable_cost m ==
     inject_Z (loans_this_month m) * revenue_per_loan w * variable_cost_pct w)%Q.
Proof.
  intros Havg Hmonth.
  destruct (metrics_of_runs w month Havg Hmonth) as (m & Hm).
  pose proof (calculate_monthly_metrics_inv _ _ _ _ _ _ _ _ _ _ Hm)
    as (_ & _ & Er & Ec & Ep & Ev & En & _).
  exists m. split; [exact Hm |]. unfold net_contribution_per_loan. split.
  - rewrite En, Er, Ec, Ep. ring.
  - rewrite Ev, Er. ring.
Qed.

Lemma net_contribution_from_unit_economics_witness :
  exists m,
    metrics_of default_sidebar 2 = Ok m /\
    (net_contribution m ==
     inject_Z (loans_this_month m) * net_contribution_per_loan default_sidebar
     - variable_cost m)%Q /\
    (variable_cost m ==
     inject_Z (loans_this_month m) * revenue_per_loan default_sidebar *
     variable_cost_pct default_sidebar)%Q.
Proof.
  apply (net_contribution_from_unit_economics default_sidebar 2);
    [discriminate | lia].
Defined.

(** ** Names of saved scenarios *)

(** X23: The name is tested stripped but stored as typed: a name and the same
    name followed by a space are two scenarios, and saving under the second
    leaves the first as it was. *)
Theorem names_are_stored_unstripped
    (name : pystr) (first second : Snapshot)
    (saved_scenarios : gmap pystr Snapshot) :
  forallb is_space name = false ->
  let padded := name ++ [32%N] in
  let saved1 := (save_scenario name first saved_scenarios).1 in
  let saved2 := (save_scenario padded second saved1).1 in
  saved2 !! name = Some first /\ saved2 !! padded = Some second.
Proof.
  intros Hname padded saved1 saved2.
  assert (Hpadded : forallb is_space padded = false).
  { unfold padded. now rewrite forallb_app, Hname. }
  assert (Hne : padded <> name).
  { unfold padded. intros E. apply (f_equal length) in E.
    rewrite length_app in E. cbn in E. lia. }
  unfold saved2, saved1, save_scenario.
  rewrite !str_truthy_strip, Hname, Hpadded. cbn.
  split.
  - rewrite lookup_insert_ne by exact Hne. apply lookup_insert_eq.
  - apply lookup_insert_eq.
Qed.

Lemma names_are_stored_unstripped_witness :
  (save_scenario ([65%N] ++ [32%N]) other_snapshot
     (save_scenario [65%N] default_snapshot ∅).1).1 !! [65%N] =
    Some default_snapshot /\
  (save_scenario ([65%N] ++ [32%N]) other_snapshot
     (save_scenario [65%N] default_snapshot ∅).1).1 !! ([65%N] ++ [32%N]) =
    Some other_snapshot.
Proof.
  apply (names_are_stored_unstripped [65%N] default_snapshot other_snapshot ∅).
  reflexivity.
Defined.
